(** * Rotation core of the scoreboard data layer ([src/data/data.py])

    A shallow embedding of the [Data] class: the sports-day resolver, the
    game catalog, the two rotation cursors, the preferred-team interrupt and
    the network flag.  Python exceptions are explicit outcomes, the object's
    attributes are the fields of a state record threaded through a small
    state-and-exception monad, and the upstream provider is an oracle indexed
    by the number of requests issued so far. *)

From stdpp Require Import base gmap strings list.
From Stdlib Require Import ZArith Lia.

Open Scope string_scope.
Open Scope list_scope.

(** ** Data model *)

(** A naive [datetime]: the proleptic Gregorian ordinal of its calendar date
    (what [timedelta(days=...)] arithmetic acts on and what [strftime]
    renders as [%Y-%m-%d]) and the microseconds elapsed since midnight.
    Python compares naive datetimes lexicographically on the two. *)
Record datetime := mkDatetime { dt_ordinal : Z; dt_micros : Z }.

Definition datetime_gt (a b : datetime) : bool :=
  (dt_ordinal b <? dt_ordinal a)%Z
  || ((dt_ordinal a =? dt_ordinal b)%Z && (dt_micros b <? dt_micros a)%Z).

Definition minus_one_day (d : datetime) : datetime :=
  {| dt_ordinal := dt_ordinal d - 1; dt_micros := dt_micros d |}.

(** One entry of [statsapi.schedule]. *)
Record Game := mkGame {
  game_id : Z;
  away_name : string;
  home_name : string;
  status : string
}.

(** The detail record of [statsapi.get("game", ...)], restricted to the
    fields the class subscripts.  [inningState] is absent from the linescore
    of a game that has not started, hence the option. *)
Record GameData := mkGameData {
  gd_id : Z;                      (* ["gameData"]["game"]["id"] *)
  detailedState : string;         (* ["gameData"]["status"]["detailedState"] *)
  noHitter : bool;                (* ["gameData"]["flags"]["noHitter"] *)
  perfectGame : bool;             (* ["gameData"]["flags"]["perfectGame"] *)
  inningState : option string     (* ["liveData"]["linescore"]["inningState"] *)
}.

Record Division := mkDivision { name : string; rows : list string }.
Record Standings := mkStandings { divisions : list Division }.

Inductive LayoutState :=
  LAYOUT_STATE_DEFAULT | LAYOUT_STATE_WARMUP | LAYOUT_STATE_NOHIT | LAYOUT_STATE_PERFECT.

Record Config := mkConfig {
  demo_date : option string;      (* [False] or a date string *)
  end_of_day : string;
  preferred_teams : list string;
  preferred_divisions : list string;
  rotation_enabled : bool;
  rotation_only_preferred : bool;
  rotation_preferred_team_live_mid_inning : bool
}.

(** An attribute that [__init__] does not create is [Unset] until its first
    assignment; an attribute can also hold Python's [None]. *)
Inductive attr (A : Type) := Unset | PyNone | Val (a : A).
Arguments Unset {A}.
Arguments PyNone {A}.
Arguments Val {A} a.

(** The attributes of a [Data] object.  [layout_state] is the state held by
    [config.layout]; [upstream_calls] counts the requests issued so far and
    selects the oracle's answer to the next one. *)
Record Data := mkData {
  config : Config;
  today : datetime;
  needs_refresh : bool;
  current_game_index : nat;
  current_division_index : nat;
  games : list Game;
  standings : attr Standings;
  game_data : attr GameData;
  network_issues : bool;
  layout_state : LayoutState;
  upstream_calls : nat
}.

Definition set_needs_refresh (b : bool) (s : Data) : Data :=
  mkData (config s) (today s) b (current_game_index s) (current_division_index s)
         (games s) (standings s) (game_data s) (network_issues s) (layout_state s)
         (upstream_calls s).
Definition set_current_game_index (i : nat) (s : Data) : Data :=
  mkData (config s) (today s) (needs_refresh s) i (current_division_index s)
         (games s) (standings s) (game_data s) (network_issues s) (layout_state s)
         (upstream_calls s).
Definition set_current_division_index (i : nat) (s : Data) : Data :=
  mkData (config s) (today s) (needs_refresh s) (current_game_index s) i
         (games s) (standings s) (game_data s) (network_issues s) (layout_state s)
         (upstream_calls s).
Definition set_games (l : list Game) (s : Data) : Data :=
  mkData (config s) (today s) (needs_refresh s) (current_game_index s)
         (current_division_index s) l (standings s) (game_data s) (network_issues s)
         (layout_state s) (upstream_calls s).
Definition set_standings (x : attr Standings) (s : Data) : Data :=
  mkData (config s) (today s) (needs_refresh s) (current_game_index s)
         (current_division_index s) (games s) x (game_data s) (network_issues s)
         (layout_state s) (upstream_calls s).
Definition set_game_data (x : attr GameData) (s : Data) : Data :=
  mkData (config s) (today s) (needs_refresh s) (current_game_index s)
         (current_division_index s) (games s) (standings s) x (network_issues s)
         (layout_state s) (upstream_calls s).
Definition set_network_issues (b : bool) (s : Data) : Data :=
  mkData (config s) (today s) (needs_refresh s) (current_game_index s)
         (current_division_index s) (games s) (standings s) (game_data s) b
         (layout_state s) (upstream_calls s).
Definition set_layout_state (l : LayoutState) (s : Data) : Data :=
  mkData (config s) (today s) (needs_refresh s) (current_game_index s)
         (current_division_index s) (games s) (standings s) (game_data s)
         (network_issues s) l (upstream_calls s).
Definition tick (s : Data) : Data :=
  mkData (config s) (today s) (needs_refresh s) (current_game_index s)
         (current_division_index s) (games s) (standings s) (game_data s)
         (network_issues s) (layout_state s) (S (upstream_calls s)).

(** ** Exceptions and the state monad *)

Inductive exn :=
  | IndexError | KeyError | AttributeError | TypeError | StopIteration
  | ValueError | UpstreamError.

Inductive outcome (A : Type) := Ret (a : A) | Raise (e : exn).
Arguments Ret {A} a.
Arguments Raise {A} e.

(** A method body: it runs on the object's state and leaves a state behind
    whether it returns or raises (assignments made before a raise persist). *)
Definition Py (A : Type) : Type := Data -> outcome A * Data.

Definition ret {A} (a : A) : Py A := fun s => (Ret a, s).
Definition raise {A} (e : exn) : Py A := fun s => (Raise e, s).
Definition bind {A B} (m : Py A) (k : A -> Py B) : Py B :=
  fun s => match m s with
           | (Ret a, s') => k a s'
           | (Raise e, s') => (Raise e, s')
           end.
Definition gets {A} (f : Data -> A) : Py A := fun s => (Ret (f s), s).
Definition modify (f : Data -> Data) : Py unit := fun s => (Ret tt, f s).

(** [try: body / except: handler / else: orelse]: a bare [except] catches
    every exception of [body]; what [handler] or [orelse] raise propagates. *)
Definition try_except_else {A B} (body : Py A) (handler : Py B) (orelse : A -> Py B) : Py B :=
  fun s => match body s with
           | (Ret a, s') => orelse a s'
           | (Raise _, s') => handler s'
           end.

Declare Scope py_scope.
Delimit Scope py_scope with py.
Notation "x <- m ;; k" := (bind m (fun x => k))
  (at level 100, m at next level, right associativity) : py_scope.
Notation "m ;;; k" := (bind m (fun _ => k))
  (at level 100, right associativity) : py_scope.
Open Scope py_scope.

(** [l[i]] on a list and [d[k]] on a dict. *)
Definition getitem {A} (l : list A) (i : nat) : Py A :=
  match l !! i with Some x => ret x | None => raise IndexError end.
Definition getkey (d : gmap string string) (k : string) : Py string :=
  match d !! k with Some v => ret v | None => raise KeyError end.

(** [any(f(x) for x in l)]: the generator stops at the first true value and
    evaluates [f] on no element of an empty list. *)
Fixpoint py_any {A} (f : A -> Py bool) (l : list A) : Py bool :=
  match l with
  | [] => ret false
  | x :: l' => b <- f x ;; if b then ret true else py_any f l'
  end.

(** [[f(x) for x in l]]. *)
Fixpoint py_map {A B} (f : A -> Py B) (l : list A) : Py (list B) :=
  match l with
  | [] => ret []
  | x :: l' => y <- f x ;; ys <- py_map f l' ;; ret (y :: ys)
  end.

(** [next((x for x in l if p(x)), default)]. *)
Fixpoint py_next {A} (p : A -> Py bool) (l : list A) (default : A) : Py A :=
  match l with
  | [] => ret default
  | x :: l' => b <- p x ;; if b then ret x else py_next p l' default
  end.

(** [enumerate(l)] *)
Definition enumerate {A} (l : list A) : list (nat * A) := imap pair l.

(** The upstream provider.  Each of its three calls is fallible; [None] is a
    raised exception.  The first argument is the number of requests issued
    before this one, so that two requests of one operation may fare
    differently. *)
Record Upstream := mkUpstream {
  schedule : nat -> Z -> option (list Game);
  get_game : nat -> Z -> option GameData;
  get_standings : nat -> datetime -> option Standings
}.

(** ** The [Data] class *)

Section DataClass.

(** [data.teams.TEAM_FULL]: short team identifier to the provider's full
    team name. *)
Variable TEAM_FULL : gmap string string.

(** [data.status.Status]: the classifier predicates and the warm-up
    status string. *)
Variable is_live : string -> bool.
Variable is_inning_break : string -> bool.
Variable WARMUP : string.

(** [datetime.strptime] with the formats [%Y-%m-%d] (giving the ordinal of
    the parsed date) and [%H:%M] (giving the microseconds since midnight);
    [None] is a [ValueError]. *)
Variable strptime_ymd : string -> option Z.
Variable strptime_hm : string -> option Z.

Variable api : Upstream.

(** *** Date *)

(** [if self.config.demo_date:] *)
Definition demo_configured (cfg : Config) : bool :=
  match demo_date cfg with
  | Some s => negb (String.eqb s "")
  | None => false
  end.

(** [__parse_today]; [t_today] and [t_now] are what [datetime.today()] and
    [datetime.now()] read off the clock. *)
Definition parse_today (cfg : Config) (t_today t_now : datetime) : outcome datetime :=
  if demo_configured cfg then
    match strptime_ymd (default "" (demo_date cfg)) with
    | Some o => Ret {| dt_ordinal := o; dt_micros := 0 |}
    | None => Raise ValueError
    end
  else
    match strptime_hm (end_of_day cfg) with
    | Some c =>
        let end_of_day := {| dt_ordinal := dt_ordinal t_today; dt_micros := c |} in
        if datetime_gt end_of_day t_now then Ret (minus_one_day t_today)
        else Ret t_today
    | None => Raise ValueError
    end.

(** [date]: the calendar date of [self.today]. *)
Definition date (s : Data) : Z := dt_ordinal (today s).

(** *** Upstream requests *)

Definition upstream {A} (answer : nat -> option A) : Py A :=
  fun s => match answer (upstream_calls s) with
           | Some a => (Ret a, tick s)
           | None => (Raise UpstreamError, tick s)
           end.

Definition statsapi_schedule (day : Z) : Py (list Game) :=
  upstream (fun n => schedule api n day).
Definition statsapi_get (gid : Z) : Py GameData :=
  upstream (fun n => get_game api n gid).
Definition Standings_new (day : datetime) : Py Standings :=
  upstream (fun n => get_standings api n day).

(** *** Standings refresh *)

(** [refresh_standings] (lines 82-87): the failure is logged and nothing
    else happens. *)
Definition refresh_standings : Py unit :=
  try_except_else
    (d <- gets today ;; st <- Standings_new d ;; modify (set_standings (Val st)))
    (ret tt)
    (fun _ => ret tt).

(** *** Game catalog *)

(** [set([game["away_name"], game["home_name"]]).intersection(set(teams))]
    is truthy. *)
Definition involves (teams : list string) (g : Game) : Prop :=
  ({[away_name g; home_name g]} ∩ list_to_set teams : gset string) ≠ ∅.

(** [__filter_list_of_games] (lines 216-219). *)
Definition filter_list_of_games (gs : list Game) (filter_teams : list string)
  : Py (list Game) :=
  teams <- py_map (getkey TEAM_FULL) filter_teams ;;
  ret (filter (involves teams) gs).

(** [__get_games] (lines 94-107); the [else] clause lies outside the
    [try], so a [KeyError] of the filter propagates. *)
Definition get_games : Py (list Game) :=
  day <- gets date ;;
  try_except_else
    (statsapi_schedule day)
    (modify (set_network_issues true) ;;; ret [])
    (fun all_games =>
       modify (set_network_issues false) ;;;
       cfg <- gets config ;;
       if rotation_only_preferred cfg
       then filter_list_of_games all_games (preferred_teams cfg)
       else ret all_games).

(** [refresh_games] (lines 89-92), without the refresh time stamp. *)
Definition refresh_games : Py unit :=
  gs <- get_games ;; modify (set_games gs).

(** *** Game selection *)

(** [current_game] (lines 188-189). *)
Definition current_game : Py Game :=
  gs <- gets games ;; i <- gets current_game_index ;; getitem gs i.

(** [team_name in [game["away_name"], game["home_name"]]] *)
Definition plays (team_name : string) (g : Game) : bool :=
  bool_decide (team_name ∈ [away_name g; home_name g]).

(** [__game_index_for] (lines 221-231). *)
Definition game_index_for (team_name : string) : Py nat :=
  team_name <- getkey TEAM_FULL team_name ;;
  team_index <- gets current_game_index ;;
  gs <- gets games ;;
  let team_idxs := (filter (fun p => plays team_name p.2 = true) (enumerate gs)).*1 in
  match team_idxs with
  | [] => ret team_index
  | first :: _ =>
      py_next (fun i => g <- getitem gs i ;; ret (is_live (status g))) team_idxs first
  end.

(** [game_index_for_preferred_team] (lines 210-214). *)
Definition game_index_for_preferred_team : Py nat :=
  cfg <- gets config ;;
  match preferred_teams cfg with
  | t :: _ => game_index_for t
  | [] => gets current_game_index
  end.

(** [__next_game_index] (lines 233-238). *)
Definition next_game_index : Py nat :=
  i <- gets current_game_index ;;
  gs <- gets games ;;
  let counter := i + 1 in
  ret (if decide (length gs <= counter) then 0 else counter).

(** [is_offday_for_preferred_team] (lines 243-250); the team is resolved
    inside the generator, once per game visited. *)
Definition is_offday_for_preferred_team : Py bool :=
  cfg <- gets config ;;
  match preferred_teams cfg with
  | t :: _ =>
      gs <- gets games ;;
      b <- py_any (fun g => n <- getkey TEAM_FULL t ;; ret (plays n g)) gs ;;
      ret (negb b)
  | [] => ret true
  end.

(** [is_offday] (lines 252-253). *)
Definition is_offday : Py bool :=
  gs <- gets games ;; ret (bool_decide (length gs = 0)).

(** *** Game detail *)

(** Reading [self.game_data], and subscripting a value that may be [None]. *)
Definition getattr_game_data : Py (option GameData) :=
  fun s => match game_data s with
           | Unset => (Raise AttributeError, s)
           | PyNone => (Ret None, s)
           | Val d => (Ret (Some d), s)
           end.
Definition subscript (o : option GameData) : Py GameData :=
  match o with Some d => ret d | None => raise TypeError end.
Definition attr_of_option {A} (o : option A) : attr A :=
  match o with Some a => Val a | None => PyNone end.

(** [__update_layout_state] (lines 152-161). *)
Definition update_layout_state : Py unit :=
  modify (set_layout_state LAYOUT_STATE_DEFAULT) ;;;
  gd <- (o <- getattr_game_data ;; subscript o) ;;
  (if String.eqb (detailedState gd) WARMUP
   then modify (set_layout_state LAYOUT_STATE_WARMUP) else ret tt) ;;;
  (if noHitter gd then modify (set_layout_state LAYOUT_STATE_NOHIT) else ret tt) ;;;
  (if perfectGame gd then modify (set_layout_state LAYOUT_STATE_PERFECT) else ret tt).

(** [print_game_data_debug] only logs; it reads [self.game_data]. *)
Definition print_game_data_debug : Py unit :=
  o <- getattr_game_data ;; _ <- subscript o ;; ret tt.

(** [fetch_preferred_team_game_data] (lines 133-150); on an off day the
    method falls off its end and returns [None]. *)
Definition fetch_preferred_team_game_data : Py (option GameData) :=
  off <- is_offday_for_preferred_team ;;
  if negb off then
    i <- game_index_for_preferred_team ;;
    gs <- gets games ;;
    game <- getitem gs i ;;
    try_except_else
      (statsapi_get (game_id game))
      (gd <- getattr_game_data ;;
       modify (set_network_issues true) ;;;
       ret gd)
      (fun gd => modify (set_network_issues false) ;;; ret (Some gd))
  else ret None.

(** The condition of the interrupt: [self.network_issues or (is_live(...)
    and not is_inning_break(...))], evaluated left to right. *)
Definition interrupt_condition (preferred_game_data : option GameData) : Py bool :=
  ni <- gets network_issues ;;
  if ni then ret true
  else
    d <- subscript preferred_game_data ;;
    if is_live (detailedState d) then
      match inningState d with
      | Some st => ret (negb (is_inning_break st))
      | None => raise KeyError
      end
    else ret false.

(** [advance_to_next_game] (lines 191-208). *)
Definition advance_to_next_game : Py Game :=
  cfg <- gets config ;;
  check <- (if rotation_preferred_team_live_mid_inning cfg
            then off <- is_offday_for_preferred_team ;; ret (negb off)
            else ret false) ;;
  moved <- (if check : bool then
              preferred_game_data <- fetch_preferred_team_game_data ;;
              c <- interrupt_condition preferred_game_data ;;
              if c : bool then
                i <- game_index_for_preferred_team ;;
                modify (set_current_game_index i) ;;;
                modify (set_game_data (attr_of_option preferred_game_data)) ;;;
                modify (set_needs_refresh false) ;;;
                update_layout_state ;;;
                print_game_data_debug ;;;
                g <- current_game ;;
                ret (Some g)
              else ret None
            else ret None) ;;
  match moved with
  | Some g => ret g
  | None =>
      i <- next_game_index ;;
      modify (set_current_game_index i) ;;;
      current_game
  end.

(** What follows the [try] statement of [refresh_game_data] when the fetch
    failed: "just move on to the next game". *)
Definition move_on : Py unit :=
  cfg <- gets config ;;
  if rotation_enabled cfg then (_ <- advance_to_next_game ;; ret tt) else ret tt.

(** [refresh_game_data] (lines 109-124); [returned] tells whether the
    [else] clause ran, which ends in [return]. *)
Definition refresh_game_data : Py unit :=
  returned <- try_except_else
    (g <- current_game ;;
     d <- statsapi_get (game_id g) ;;
     modify (set_game_data (Val d)))
    (modify (set_network_issues true) ;;; ret false)
    (fun _ =>
       update_layout_state ;;;
       modify (set_needs_refresh false) ;;;
       print_game_data_debug ;;;
       modify (set_network_issues false) ;;;
       ret true) ;;
  if returned : bool then ret tt else move_on.

(** *** Standings *)

(** [__standings_for] (lines 169-170): [next] without a default. *)
Definition standings_for (division_name : string) : Py Division :=
  st <- gets standings ;;
  match st with
  | Val st =>
      match List.find (fun d => String.eqb (name d) division_name) (divisions st) with
      | Some d => ret d
      | None => raise StopIteration
      end
  | _ => raise AttributeError
  end.

(** [current_standings] (lines 172-173). *)
Definition current_standings : Py Division :=
  cfg <- gets config ;;
  i <- gets current_division_index ;;
  division_name <- getitem (preferred_divisions cfg) i ;;
  standings_for division_name.

(** [__next_division_index] (lines 179-183). *)
Definition next_division_index : Py nat :=
  i <- gets current_division_index ;;
  cfg <- gets config ;;
  let counter := i + 1 in
  ret (if decide (length (preferred_divisions cfg) <= counter) then 0 else counter).

(** [advance_to_next_standings] (lines 175-177). *)
Definition advance_to_next_standings : Py Division :=
  i <- next_division_index ;;
  modify (set_current_division_index i) ;;;
  current_standings.

(** [standings_for_preferred_division] (lines 166-167). *)
Definition standings_for_preferred_division : Py Division :=
  cfg <- gets config ;;
  division_name <- getitem (preferred_divisions cfg) 0 ;;
  standings_for division_name.

(** *** Live games *)

(** [Status.is_fresh], the last classifier the class uses. *)
Variable is_fresh : string -> bool.

(** [games_live] (lines 255-259). *)
Definition games_live : Py bool :=
  gs <- gets games ;;
  py_any (fun g => ret (is_fresh (status g)
                        || (is_live (status g) || String.eqb (status g) WARMUP))) gs.

(** *** Construction *)

(** [__init__] up to the network flag; the weather and headline feeds it
    goes on to create are outside the rotation core. *)
Definition init (cfg : Config) (t_today t_now : datetime) : outcome unit * option Data :=
  match parse_today cfg t_today t_now with
  | Raise e => (Raise e, None)
  | Ret d =>
      let s0 := {| config := cfg; today := d; needs_refresh := true;
                   current_game_index := 0; current_division_index := 0;
                   games := []; standings := Unset; game_data := Unset;
                   network_issues := false; layout_state := LAYOUT_STATE_DEFAULT;
                   upstream_calls := 0 |} in
      let '(r, s) := (refresh_games ;;;
                      i <- game_index_for_preferred_team ;;
                      modify (set_current_game_index i) ;;;
                      refresh_standings ;;;
                      modify (set_network_issues false)) s0 in
      (r, Some s)
  end.

End DataClass.

(** ** Reference functions

    Closed forms the methods are compared with. *)

Section Reference.

Variable is_live : string -> bool.

(** Catalog positions from offset [k] on whose game involves [n]. *)
Definition idxs_from (n : string) (k : nat) (l : list Game) : list nat :=
  (filter (fun p => plays n p.2 = true) (imap (fun i g => (k + i, g)) l)).*1.

Definition plays_live (n : string) (g : Game) : Prop :=
  plays n g = true /\ is_live (status g) = true.

(** The index [__game_index_for] computes, as a function of the catalog. *)
Definition team_index (n : string) (gs : list Game) (cur : nat) : nat :=
  match list_find (plays_live n) gs with
  | Some (i, _) => i
  | None =>
      match list_find (fun g => plays n g = true) gs with
      | Some (i, _) => i
      | None => cur
      end
  end.

(** The state of [config.layout] after [__update_layout_state]. *)
Definition layout_of (WARMUP : string) (d : GameData) : LayoutState :=
  if perfectGame d then LAYOUT_STATE_PERFECT
  else if noHitter d then LAYOUT_STATE_NOHIT
  else if String.eqb (detailedState d) WARMUP then LAYOUT_STATE_WARMUP
  else LAYOUT_STATE_DEFAULT.

(** The successor of a cursor over a list of [len] elements. *)
Definition next_index (len i : nat) : nat := if decide (len <= i + 1) then 0 else i + 1.

(** The ordinary cursor increment that closes [advance_to_next_game]. *)
Definition rotate : Py Game :=
  i <- next_game_index ;;
  modify (set_current_game_index i) ;;;
  current_game.

(** The state the mid-inning interrupt leaves behind when it fires on state
    [s] for the team named [n]: the request is counted, the flag is the
    outcome [failed] of the fetch, the cursor is on the team's game, [d] is
    the cached detail, the selection is fresh and the layout follows [d]. *)
Definition interrupted (WARMUP : string) (n : string) (s : Data) (failed : bool)
    (d : GameData) : Data :=
  set_layout_state (layout_of WARMUP d)
    (set_needs_refresh false
       (set_game_data (Val d)
          (set_current_game_index (team_index n (games s) (current_game_index s))
             (set_network_issues failed (tick s))))).

(** The state an operation leaves, whether it returns or raises. *)
Definition after {A} (m : Py A) (s : Data) : Data := (m s).2.

(** [keeps R m]: whatever [m] does, the state it leaves is [R]-related to
    the state it started from. *)
Definition keeps (R : Data -> Data -> Prop) {A} (m : Py A) : Prop :=
  forall s, R s (m s).2.

(** Agreement of two states on one attribute. *)
Definition same_on {X} (f : Data -> X) (s s' : Data) : Prop := f s' = f s.

(** The standings side of the object: configuration, sports day, standings
    table and division cursor. *)
Definition same_standings_side (s s' : Data) : Prop :=
  config s' = config s /\ today s' = today s
  /\ standings s' = standings s
  /\ current_division_index s' = current_division_index s.

(** The standings side and the game catalog. *)
Definition same_catalog (s s' : Data) : Prop :=
  same_standings_side s s' /\ games s' = games s.

(** The game side of the object: everything but the standings table, the
    division cursor and the request count. *)
Definition same_game_side (s s' : Data) : Prop :=
  config s' = config s /\ today s' = today s /\ games s' = games s
  /\ current_game_index s' = current_game_index s
  /\ game_data s' = game_data s /\ needs_refresh s' = needs_refresh s
  /\ network_issues s' = network_issues s /\ layout_state s' = layout_state s.


End Reference.

(** ** A sample deployment

    A four-team lookup table, a status classifier, one day's slate with a
    double-header of the preferred team, and upstream oracles with outages;
    the concrete inputs of the examples below. *)

Module Demo.

Definition TEAM_FULL : gmap string string :=
  list_to_map [("Yankees", "New York Yankees"); ("Red Sox", "Boston Red Sox");
               ("Cubs", "Chicago Cubs"); ("Mets", "New York Mets")].

Definition is_live (st : string) : bool := String.eqb st "In Progress".
Definition is_inning_break (st : string) : bool :=
  String.eqb st "Middle" || String.eqb st "End".
Definition WARMUP : string := "Warmup".

Definition strptime_ymd (str : string) : option Z :=
  if String.eqb str "2021-04-05" then Some 737885%Z else None.
Definition strptime_hm (str : string) : option Z :=
  if String.eqb str "03:00" then Some 10800000000%Z else None.

(** 01:30 and 14:00 on 2021-04-06. *)
Definition night : datetime := {| dt_ordinal := 737886; dt_micros := 5400000000 |}.
Definition afternoon : datetime := {| dt_ordinal := 737886; dt_micros := 50400000000 |}.

Definition cfg : Config :=
  {| demo_date := None; end_of_day := "03:00";
     preferred_teams := ["Yankees"];
     preferred_divisions := ["AL East"; "NL Central"];
     rotation_enabled := true;
     rotation_only_preferred := false;
     rotation_preferred_team_live_mid_inning := true |}.

Definition cfg_demo : Config :=
  {| demo_date := Some "2021-04-05"; end_of_day := "03:00";
     preferred_teams := ["Yankees"];
     preferred_divisions := ["AL East"; "NL Central"];
     rotation_enabled := true;
     rotation_only_preferred := true;
     rotation_preferred_team_live_mid_inning := false |}.

Definition slate : list Game :=
  [ {| game_id := 101; away_name := "Chicago Cubs"; home_name := "New York Mets";
       status := "Scheduled" |};
    {| game_id := 102; away_name := "New York Yankees"; home_name := "Boston Red Sox";
       status := "Final" |};
    {| game_id := 103; away_name := "Boston Red Sox"; home_name := "New York Yankees";
       status := "In Progress" |} ].

Definition detail (gid : Z) : GameData :=
  {| gd_id := gid;
     detailedState := if (gid =? 103)%Z then "In Progress"
                      else if (gid =? 102)%Z then "Final" else "Scheduled";
     noHitter := false; perfectGame := false;
     inningState := if (gid =? 103)%Z then Some "Top" else None |}.

Definition table : Standings :=
  {| divisions := [ {| name := "AL East"; rows := ["New York Yankees"; "Boston Red Sox"] |};
                    {| name := "NL Central"; rows := ["Chicago Cubs"] |} ] |}.

(** An upstream that answers the requests whose number satisfies [up] and
    fails the others. *)
Definition api (up : nat -> bool) : Upstream :=
  {| schedule := fun k _ => if up k then Some slate else None;
     get_game := fun k gid => if up k then Some (detail gid) else None;
     get_standings := fun k _ => if up k then Some table else None |}.

Definition always : nat -> bool := fun _ => true.
Definition never : nat -> bool := fun _ => false.
Definition outage_from (k0 : nat) : nat -> bool := fun k => Nat.ltb k k0.
Definition blip_at (k0 : nat) : nat -> bool := fun k => negb (Nat.eqb k k0).

(** The object [Data(cfg)] built at 14:00 while the upstream answers: the
    slate is loaded, the cursor is on the live game of the double-header,
    the standings are loaded and no game detail has been fetched yet. *)
Definition fresh : Data :=
  {| config := cfg; today := afternoon; needs_refresh := true;
     current_game_index := 2; current_division_index := 0;
     games := slate; standings := Val table; game_data := Unset;
     network_issues := false; layout_state := LAYOUT_STATE_DEFAULT;
     upstream_calls := 2 |}.

(** The object built while the upstream is down: an empty catalog and no
    standings. *)
Definition offline : Data :=
  {| config := cfg; today := afternoon; needs_refresh := true;
     current_game_index := 0; current_division_index := 0;
     games := []; standings := Unset; game_data := Unset;
     network_issues := false; layout_state := LAYOUT_STATE_DEFAULT;
     upstream_calls := 2 |}.

(** [fresh] with the cursor on the first game and the detail of game 101
    cached. *)
Definition watching : Data :=
  set_game_data (Val (detail 101)) (set_current_game_index 0 fresh).

(** A plain round-robin deployment (no mid-inning interrupt) on the
    same slate, cursor on the last game. *)
Definition plain : Data :=
  {| config := cfg_demo; today := {| dt_ordinal := 737885; dt_micros := 0 |};
     needs_refresh := true;
     current_game_index := 2; current_division_index := 1;
     games := slate; standings := Val table; game_data := Unset;
     network_issues := false; layout_state := LAYOUT_STATE_DEFAULT;
     upstream_calls := 2 |}.

(** A deployment whose only preferred division is not in the standings. *)
Definition cfg_al_north : Config :=
  {| demo_date := None; end_of_day := "03:00";
     preferred_teams := ["Yankees"];
     preferred_divisions := ["AL North"];
     rotation_enabled := true;
     rotation_only_preferred := false;
     rotation_preferred_team_live_mid_inning := true |}.

Definition al_north : Data :=
  {| config := cfg_al_north; today := afternoon; needs_refresh := true;
     current_game_index := 2; current_division_index := 0;
     games := slate; standings := Val table; game_data := Unset;
     network_issues := false; layout_state := LAYOUT_STATE_DEFAULT;
     upstream_calls := 2 |}.

Definition is_fresh (st : string) : bool :=
  String.eqb st "Scheduled" || String.eqb st "Pre-Game".

(** The sample deployment on a slate where the preferred team's only game
    is over: the first two games of the slate, cursor on the first. *)
Definition finished : Data :=
  {| config := cfg; today := afternoon; needs_refresh := true;
     current_game_index := 0; current_division_index := 0;
     games := take 2 slate; standings := Val table; game_data := Unset;
     network_issues := false; layout_state := LAYOUT_STATE_DEFAULT;
     upstream_calls := 2 |}.

(** A deployment that shows only the preferred teams, one of which the
    lookup table does not know. *)
Definition cfg_expos : Config :=
  {| demo_date := None; end_of_day := "03:00";
     preferred_teams := ["Yankees"; "Expos"];
     preferred_divisions := ["AL East"];
     rotation_enabled := true;
     rotation_only_preferred := true;
     rotation_preferred_team_live_mid_inning := false |}.

Definition expos : Data :=
  {| config := cfg_expos; today := afternoon; needs_refresh := true;
     current_game_index := 1; current_division_index := 0;
     games := slate; standings := Val table; game_data := Unset;
     network_issues := true; layout_state := LAYOUT_STATE_DEFAULT;
     upstream_calls := 5 |}.

End Demo.

(** ** Properties *)

(** *** Team matching *)

Lemma plays_true n g : plays n g = true <-> away_name g = n \/ home_name g = n.
Proof.
  unfold plays. rewrite bool_decide_eq_true.
  rewrite !elem_of_cons, elem_of_nil.
  split; [intros [H|[H|[]]]; auto | intros [H|H]; auto].
Qed.

(** The set intersection of the catalog filter is membership of either
    name in the list of resolved teams. *)
Lemma involves_iff teams g :
  involves teams g <-> away_name g ∈ teams \/ home_name g ∈ teams.
Proof.
  unfold involves. split.
  - intros Hne.
    destruct (decide (away_name g ∈ teams)) as [|Ha]; [by left|].
    destruct (decide (home_name g ∈ teams)) as [|Hh]; [by right|].
    exfalso. apply Hne. apply set_eq. intros x.
    rewrite elem_of_intersection, elem_of_union, !elem_of_singleton, elem_of_list_to_set.
    split; [|set_solver]. intros [[Hx|Hx] Hin]; subst x; contradiction.
  - intros H Hempty.
    assert (Hin : forall x, x ∉ ({[away_name g; home_name g]} ∩ list_to_set teams : gset string))
      by (rewrite Hempty; set_solver).
    destruct H as [H|H]; eapply Hin; apply elem_of_intersection; split;
      try (apply elem_of_list_to_set; exact H); set_solver.
Qed.

Section Properties.

Set Default Proof Using "Type".

Variable TEAM_FULL : gmap string string.
Variable is_live : string -> bool.
Variable is_inning_break : string -> bool.
Variable WARMUP : string.
Variable strptime_ymd : string -> option Z.
Variable strptime_hm : string -> option Z.
Variable api : Upstream.

Abbreviation game_index_for := (game_index_for TEAM_FULL is_live).
Abbreviation game_index_for_preferred_team := (game_index_for_preferred_team TEAM_FULL is_live).
Abbreviation is_offday_for_preferred_team := (is_offday_for_preferred_team TEAM_FULL).
Abbreviation fetch_preferred_team_game_data :=
  (fetch_preferred_team_game_data TEAM_FULL is_live api).
Abbreviation advance_to_next_game :=
  (advance_to_next_game TEAM_FULL is_live is_inning_break WARMUP api).
Abbreviation refresh_game_data :=
  (refresh_game_data TEAM_FULL is_live is_inning_break WARMUP api).
Abbreviation move_on :=
  (move_on TEAM_FULL is_live is_inning_break WARMUP api).
Abbreviation get_games := (get_games TEAM_FULL api).
Abbreviation refresh_games := (refresh_games TEAM_FULL api).
Abbreviation refresh_standings := (refresh_standings api).
Abbreviation parse_today := (parse_today strptime_ymd strptime_hm).
Abbreviation update_layout_state := (update_layout_state WARMUP).
Abbreviation layout_of := (layout_of WARMUP).
Abbreviation interrupt_condition := (interrupt_condition is_live is_inning_break).
Abbreviation plays_live := (plays_live is_live).
Abbreviation team_index := (team_index is_live).

(** *** Running a method body *)

Lemma bind_Ret {A B} (m : Py A) (k : A -> Py B) s a s' :
  m s = (Ret a, s') -> bind m k s = k a s'.
Proof. intros H. unfold bind. by rewrite H. Qed.

Lemma bind_Raise {A B} (m : Py A) (k : A -> Py B) s e s' :
  m s = (Raise e, s') -> bind m k s = (Raise e, s').
Proof. intros H. unfold bind. by rewrite H. Qed.

Lemma bind_gets {A B} (f : Data -> A) (k : A -> Py B) s : bind (gets f) k s = k (f s) s.
Proof. reflexivity. Qed.

Lemma bind_modify {B} (f : Data -> Data) (k : unit -> Py B) s :
  bind (modify f) k s = k tt (f s).
Proof. reflexivity. Qed.

Lemma bind_ret {A B} (a : A) (k : A -> Py B) s : bind (ret a) k s = k a s.
Proof. reflexivity. Qed.

Lemma try_Ret {A B} (body : Py A) (handler : Py B) (orelse : A -> Py B) s a s' :
  body s = (Ret a, s') -> try_except_else body handler orelse s = orelse a s'.
Proof. intros H. unfold try_except_else. by rewrite H. Qed.

Lemma try_Raise {A B} (body : Py A) (handler : Py B) (orelse : A -> Py B) s e s' :
  body s = (Raise e, s') -> try_except_else body handler orelse s = handler s'.
Proof. intros H. unfold try_except_else. by rewrite H. Qed.

Lemma upstream_Some {A} (answer : nat -> option A) s a :
  answer (upstream_calls s) = Some a -> upstream answer s = (Ret a, tick s).
Proof. intros H. unfold upstream. by rewrite H. Qed.

Lemma upstream_None {A} (answer : nat -> option A) s :
  answer (upstream_calls s) = None -> upstream answer s = (Raise UpstreamError, tick s).
Proof. intros H. unfold upstream. by rewrite H. Qed.

(** *** Subscripts *)

Lemma getitem_Some {A} (l : list A) i x s : l !! i = Some x -> getitem l i s = (Ret x, s).
Proof. intros H. unfold getitem. by rewrite H. Qed.

Lemma getitem_None {A} (l : list A) i s : l !! i = None -> getitem l i s = (Raise IndexError, s).
Proof. intros H. unfold getitem. by rewrite H. Qed.

(** *** [any] and the off-day test *)

Lemma py_any_resolved t n gs s :
  TEAM_FULL !! t = Some n ->
  py_any (fun g => x <- getkey TEAM_FULL t ;; ret (plays x g)) gs s
  = (Ret (existsb (plays n) gs), s).
Proof.
  intros Ht. unfold getkey. rewrite Ht.
  induction gs as [|g gs IH]; [reflexivity|].
  simpl. unfold bind at 1. unfold bind at 1. simpl.
  destruct (plays n g); simpl; [reflexivity|]. exact IH.
Qed.

Lemma is_offday_for_preferred_team_resolved t ts n s :
  preferred_teams (config s) = t :: ts ->
  TEAM_FULL !! t = Some n ->
  is_offday_for_preferred_team s = (Ret (negb (existsb (plays n) (games s))), s).
Proof.
  intros Hp Ht. unfold is_offday_for_preferred_team, bind, gets. simpl.
  rewrite Hp. rewrite (py_any_resolved t n _ _ Ht). reflexivity.
Qed.

Lemma is_offday_for_preferred_team_none s :
  preferred_teams (config s) = [] ->
  is_offday_for_preferred_team s = (Ret true, s).
Proof.
  intros Hp. unfold is_offday_for_preferred_team, bind, gets. simpl.
  rewrite Hp. reflexivity.
Qed.

(** *** The index of a team's game *)

Lemma idxs_from_nil n k : idxs_from n k [] = [].
Proof. reflexivity. Qed.

Lemma idxs_from_cons n k g l :
  idxs_from n k (g :: l)
  = if plays n g then k :: idxs_from n (S k) l else idxs_from n (S k) l.
Proof.
  unfold idxs_from. rewrite imap_cons.
  assert (E : imap ((fun i x => (k + i, x)) ∘ S) l = imap (fun i x => (S k + i, x)) l).
  { apply imap_ext. intros i x _. simpl. f_equal. lia. }
  rewrite E, filter_cons. simpl.
  destruct (plays n g) eqn:Hg; case_decide; try congruence;
    simpl; rewrite ?Nat.add_0_r; reflexivity.
Qed.

Lemma team_idxs_eq n gs :
  (filter (fun p => plays n p.2 = true) (enumerate gs)).*1 = idxs_from n 0 gs.
Proof. reflexivity. Qed.

Lemma head_idxs_from n k l :
  head (idxs_from n k l)
  = (fun p => k + p.1) <$> list_find (fun g => plays n g = true) l.
Proof.
  revert k. induction l as [|g l IH]; intros k; [reflexivity|].
  rewrite idxs_from_cons. destruct (plays n g) eqn:Hg; simpl.
  - rewrite decide_True by done. simpl. by rewrite Nat.add_0_r.
  - rewrite decide_False by congruence. rewrite IH.
    destruct (list_find _ l) as [[i x]|]; simpl; [f_equal; lia|done].
Qed.

(** Scanning the team's positions for the first live game never leaves the
    catalog, and finds the first catalog position that is both. *)
Lemma py_next_idxs_from n pre l d s :
  py_next (fun i => g <- getitem (pre ++ l) i ;; ret (is_live (status g)))
          (idxs_from n (length pre) l) d s
  = (Ret (default d ((fun p => length pre + p.1) <$> list_find (plays_live n) l)), s).
Proof.
  revert pre. induction l as [|g l IH]; intros pre; [reflexivity|].
  rewrite idxs_from_cons.
  assert (Hpre : pre ++ g :: l = (pre ++ [g]) ++ l) by (by rewrite <- app_assoc).
  assert (Hlen : S (length pre) = length (pre ++ [g])) by (rewrite length_app; simpl; lia).
  destruct (plays n g) eqn:Hg; simpl.
  - unfold bind at 1. unfold bind at 1.
    rewrite (getitem_Some _ _ g) by (by apply list_lookup_middle). simpl.
    destruct (decide (plays_live n g)) as [[_ Hl]|Hn].
    + rewrite Hl. simpl. unfold ret. by rewrite Nat.add_0_r.
    + assert (Hl : is_live (status g) = false).
      { destruct (is_live (status g)) eqn:E; [|done]. exfalso. apply Hn. by split. }
      rewrite Hl. rewrite Hpre, Hlen, IH.
      destruct (list_find _ l) as [[i x]|]; simpl; [|done].
      rewrite <- Hlen, Nat.add_succ_r. reflexivity.
  - rewrite decide_False by (intros [? _]; congruence).
    rewrite Hpre, Hlen, IH.
    destruct (list_find _ l) as [[i x]|]; simpl; [|done].
    rewrite <- Hlen, Nat.add_succ_r. reflexivity.
Qed.

Lemma game_index_for_resolved t n s :
  TEAM_FULL !! t = Some n ->
  game_index_for t s = (Ret (team_index n (games s) (current_game_index s)), s).
Proof.
  intros Ht. unfold game_index_for, bind, gets, getkey. rewrite Ht. simpl.
  rewrite team_idxs_eq.
  pose proof (head_idxs_from n 0 (games s)) as Hhead.
  unfold team_index.
  destruct (idxs_from n 0 (games s)) as [|i0 rest] eqn:Hidx.
  - simpl in Hhead. destruct (list_find (fun g => plays n g = true) (games s)) as [[i x]|] eqn:Hf;
      [discriminate|].
    destruct (list_find (plays_live n) (games s)) as [[i x]|] eqn:Hl; [|reflexivity].
    apply list_find_Some in Hl as (Hi & [Hp _] & _).
    eapply list_find_None, Forall_lookup_1 in Hf; [|exact Hi]. contradiction.
  - rewrite <- Hidx.
    pose proof (py_next_idxs_from n [] (games s) i0 s) as Hnext. simpl in Hnext.
    etransitivity; [exact Hnext|]. simpl in Hhead.
    destruct (list_find (plays_live n) (games s)) as [[i x]|]; simpl; [reflexivity|].
    destruct (list_find (fun g => plays n g = true) (games s)) as [[i x]|]; simpl in *;
      [congruence|discriminate].
Qed.

Lemma game_index_for_unknown t s :
  TEAM_FULL !! t = None -> game_index_for t s = (Raise KeyError, s).
Proof. intros Ht. unfold game_index_for, bind, getkey. rewrite Ht. reflexivity. Qed.

(** [__game_index_for] is characterised by what it returns: the least live
    position of the team if there is one, else its least position, else the
    cursor. *)
Lemma team_index_live n gs cur i g :
  gs !! i = Some g -> plays_live n g ->
  exists g', gs !! team_index n gs cur = Some g' /\ plays_live n g'
             /\ forall j y, gs !! j = Some y -> plays_live n y -> team_index n gs cur <= j.
Proof.
  intros Hi Hg. unfold team_index.
  destruct (list_find (plays_live n) gs) as [[k x]|] eqn:Hf.
  - apply list_find_Some in Hf as (Hk & Hx & Hmin).
    exists x. repeat split; try done; try apply Hx.
    intros j y Hj Hy. destruct (decide (k <= j)) as [|Hlt]; [done|].
    exfalso. eapply (Hmin j y); [done|lia|done].
  - eapply list_find_None, Forall_lookup_1 in Hf; [|exact Hi]. contradiction.
Qed.

Lemma team_index_first n gs cur i g :
  (forall j y, gs !! j = Some y -> ~ plays_live n y) ->
  gs !! i = Some g -> plays n g = true ->
  exists g', gs !! team_index n gs cur = Some g' /\ plays n g' = true
             /\ forall j y, gs !! j = Some y -> plays n y = true -> team_index n gs cur <= j.
Proof.
  intros Hnl Hi Hg. unfold team_index.
  destruct (list_find (plays_live n) gs) as [[k x]|] eqn:Hf.
  { apply list_find_Some in Hf as (Hk & Hx & _). exfalso. by eapply Hnl. }
  destruct (list_find (fun g => plays n g = true) gs) as [[k x]|] eqn:Hf2.
  - apply list_find_Some in Hf2 as (Hk & Hx & Hmin).
    exists x. repeat split; try done.
    intros j y Hj Hy. destruct (decide (k <= j)) as [|Hlt]; [done|].
    exfalso. eapply (Hmin j y); [done|lia|done].
  - eapply list_find_None, Forall_lookup_1 in Hf2; [|exact Hi]. contradiction.
Qed.

Lemma team_index_none n gs cur :
  (forall j y, gs !! j = Some y -> plays n y = false) ->
  team_index n gs cur = cur.
Proof.
  intros Hno. unfold team_index.
  destruct (list_find (plays_live n) gs) as [[k x]|] eqn:Hf.
  { apply list_find_Some in Hf as (Hk & [Hx _] & _). rewrite (Hno _ _ Hk) in Hx. done. }
  destruct (list_find (fun g => plays n g = true) gs) as [[k x]|] eqn:Hf2; [|done].
  apply list_find_Some in Hf2 as (Hk & Hx & _). rewrite (Hno _ _ Hk) in Hx. done.
Qed.

Lemma existsb_plays n gs :
  existsb (plays n) gs = true <-> exists i g, gs !! i = Some g /\ plays n g = true.
Proof.
  rewrite existsb_exists. split.
  - intros (g & Hin & Hg). apply list_elem_of_In, list_elem_of_lookup in Hin as [i Hi]. eauto.
  - intros (i & g & Hi & Hg). exists g. split; [|done].
    apply list_elem_of_In, list_elem_of_lookup. eauto.
Qed.

(** When the team has a game, its index lies in the catalog, on a game of
    the team, and does not depend on the cursor. *)
Lemma team_index_plays n gs cur :
  existsb (plays n) gs = true ->
  exists g, gs !! team_index n gs cur = Some g /\ plays n g = true.
Proof.
  intros (i & g & Hi & Hg)%existsb_plays. unfold team_index.
  destruct (list_find (plays_live n) gs) as [[k x]|] eqn:Hf.
  { apply list_find_Some in Hf as (Hk & [Hx _] & _). eauto. }
  destruct (list_find (fun g => plays n g = true) gs) as [[k x]|] eqn:Hf2.
  - apply list_find_Some in Hf2 as (Hk & Hx & _). eauto.
  - eapply list_find_None, Forall_lookup_1 in Hf2; [|exact Hi]. contradiction.
Qed.

Lemma team_index_cursor n gs cur cur' :
  existsb (plays n) gs = true -> team_index n gs cur = team_index n gs cur'.
Proof.
  intros (i & g & Hi & Hg)%existsb_plays. unfold team_index.
  destruct (list_find (plays_live n) gs) as [[k x]|]; [done|].
  destruct (list_find (fun g => plays n g = true) gs) as [[k x]|] eqn:Hf2; [done|].
  eapply list_find_None, Forall_lookup_1 in Hf2; [|exact Hi]. contradiction.
Qed.

Lemma game_index_for_preferred_team_resolved t ts n s :
  preferred_teams (config s) = t :: ts ->
  TEAM_FULL !! t = Some n ->
  game_index_for_preferred_team s
  = (Ret (team_index n (games s) (current_game_index s)), s).
Proof.
  intros Hp Ht. unfold game_index_for_preferred_team.
  rewrite bind_gets, Hp. by apply game_index_for_resolved.
Qed.

Lemma game_index_for_preferred_team_none s :
  preferred_teams (config s) = [] ->
  game_index_for_preferred_team s = (Ret (current_game_index s), s).
Proof.
  intros Hp. unfold game_index_for_preferred_team. by rewrite bind_gets, Hp.
Qed.

(** *** Detail of the preferred team's game *)

Lemma getattr_game_data_Val s d : game_data s = Val d -> getattr_game_data s = (Ret (Some d), s).
Proof. intros H. unfold getattr_game_data. by rewrite H. Qed.

Lemma getattr_game_data_Unset s :
  game_data s = Unset -> getattr_game_data s = (Raise AttributeError, s).
Proof. intros H. unfold getattr_game_data. by rewrite H. Qed.

Lemma fetch_offday s :
  is_offday_for_preferred_team s = (Ret true, s) ->
  fetch_preferred_team_game_data s = (Ret None, s).
Proof.
  intros H. unfold fetch_preferred_team_game_data.
  by rewrite (bind_Ret _ _ _ _ _ H).
Qed.

Section PreferredGame.

Variables (t : string) (ts : list string) (n : string) (s : Data) (g : Game).
Hypothesis Hteams : preferred_teams (config s) = t :: ts.
Hypothesis Hfull : TEAM_FULL !! t = Some n.
Hypothesis Hplays : existsb (plays n) (games s) = true.
Hypothesis Hgame : games s !! team_index n (games s) (current_game_index s) = Some g.

Lemma not_offday : is_offday_for_preferred_team s = (Ret false, s).
Proof using Hteams Hfull Hplays. rewrite (is_offday_for_preferred_team_resolved t ts n) by done. by rewrite Hplays. Qed.

Lemma fetch_prefix (k : Game -> Py (option GameData)) :
  (off <- is_offday_for_preferred_team ;;
   if negb off then
     i <- game_index_for_preferred_team ;;
     gs <- gets games ;;
     game <- getitem gs i ;;
     k game
   else ret None) s = k g s.
Proof using Hteams Hfull Hplays Hgame.
  rewrite (bind_Ret _ _ _ _ _ not_offday). simpl.
  rewrite (bind_Ret _ _ _ _ _ (game_index_for_preferred_team_resolved t ts n s Hteams Hfull)).
  rewrite bind_gets.
  by rewrite (bind_Ret _ _ _ _ _ (getitem_Some _ _ _ s Hgame)).
Qed.

Lemma fetch_ok d :
  get_game api (upstream_calls s) (game_id g) = Some d ->
  fetch_preferred_team_game_data s = (Ret (Some d), set_network_issues false (tick s)).
Proof using Hteams Hfull Hplays Hgame.
  intros Hget. unfold fetch_preferred_team_game_data. rewrite fetch_prefix.
  unfold statsapi_get.
  by rewrite (try_Ret _ _ _ _ _ _ (upstream_Some (fun k => get_game api k (game_id g)) s d Hget)).
Qed.

Lemma fetch_stale d0 :
  get_game api (upstream_calls s) (game_id g) = None ->
  game_data s = Val d0 ->
  fetch_preferred_team_game_data s = (Ret (Some d0), set_network_issues true (tick s)).
Proof using Hteams Hfull Hplays Hgame.
  intros Hget Hd. unfold fetch_preferred_team_game_data. rewrite fetch_prefix.
  unfold statsapi_get.
  rewrite (try_Raise _ _ _ _ _ _ (upstream_None (fun k => get_game api k (game_id g)) s Hget)).
  by rewrite (bind_Ret _ _ _ _ _ (getattr_game_data_Val (tick s) d0 Hd)).
Qed.

Lemma fetch_unset :
  get_game api (upstream_calls s) (game_id g) = None ->
  game_data s = Unset ->
  fetch_preferred_team_game_data s = (Raise AttributeError, tick s).
Proof using Hteams Hfull Hplays Hgame.
  intros Hget Hd. unfold fetch_preferred_team_game_data. rewrite fetch_prefix.
  unfold statsapi_get.
  rewrite (try_Raise _ _ _ _ _ _ (upstream_None (fun k => get_game api k (game_id g)) s Hget)).
  by rewrite (bind_Raise _ _ _ _ _ (getattr_game_data_Unset (tick s) Hd)).
Qed.

End PreferredGame.

(** *** Layout state and the cursor increment *)

Lemma update_layout_state_Val s d :
  game_data s = Val d ->
  update_layout_state s = (Ret tt, set_layout_state (layout_of d) s).
Proof.
  intros Hd. unfold update_layout_state. rewrite bind_modify.
  assert (Hread : (o <- getattr_game_data ;; subscript o)
                    (set_layout_state LAYOUT_STATE_DEFAULT s)
                  = (Ret d, set_layout_state LAYOUT_STATE_DEFAULT s)).
  { erewrite bind_Ret by (by apply getattr_game_data_Val). reflexivity. }
  rewrite (bind_Ret _ _ _ _ _ Hread). unfold layout_of.
  destruct (String.eqb (detailedState d) WARMUP), (noHitter d), (perfectGame d); reflexivity.
Qed.

Lemma print_game_data_debug_Val s d :
  game_data s = Val d -> print_game_data_debug s = (Ret tt, s).
Proof.
  intros Hd. unfold print_game_data_debug.
  erewrite bind_Ret by (by apply getattr_game_data_Val). reflexivity.
Qed.

Lemma current_game_run s : current_game s = getitem (games s) (current_game_index s) s.
Proof. reflexivity. Qed.

Lemma next_game_index_run s :
  next_game_index s = (Ret (next_index (length (games s)) (current_game_index s)), s).
Proof. reflexivity. Qed.

Lemma next_division_index_run s :
  next_division_index s
  = (Ret (next_index (length (preferred_divisions (config s))) (current_division_index s)), s).
Proof. reflexivity. Qed.

Lemma rotate_run s :
  let i := next_index (length (games s)) (current_game_index s) in
  rotate s = getitem (games s) i (set_current_game_index i s).
Proof. reflexivity. Qed.

Lemma next_index_mod len i : i < len -> next_index len i = (i + 1) mod len.
Proof.
  intros Hi. unfold next_index. case_decide.
  - assert (i + 1 = len) as -> by lia. by rewrite Nat.Div0.mod_same.
  - by rewrite Nat.mod_small by lia.
Qed.

Lemma next_index_lt len i : 0 < len -> next_index len i < len.
Proof. intros Hlen. unfold next_index. case_decide; lia. Qed.

(** *** [advance_to_next_game] *)

Lemma advance_plain s :
  rotation_preferred_team_live_mid_inning (config s) = false ->
  advance_to_next_game s = rotate s.
Proof.
  intros Hflag. unfold advance_to_next_game. rewrite bind_gets, Hflag. reflexivity.
Qed.

Lemma advance_offday s :
  is_offday_for_preferred_team s = (Ret true, s) ->
  advance_to_next_game s = rotate s.
Proof.
  intros Hoff. unfold advance_to_next_game. rewrite bind_gets.
  destruct (rotation_preferred_team_live_mid_inning (config s)); [|reflexivity].
  erewrite (bind_Ret _ _ s); [|by rewrite (bind_Ret _ _ _ _ _ Hoff)]. reflexivity.
Qed.

Section Interrupt.

Variables (t : string) (ts : list string) (n : string) (s : Data) (g : Game).
Hypothesis Hflag : rotation_preferred_team_live_mid_inning (config s) = true.
Hypothesis Hteams : preferred_teams (config s) = t :: ts.
Hypothesis Hfull : TEAM_FULL !! t = Some n.
Hypothesis Hplays : existsb (plays n) (games s) = true.
Hypothesis Hgame : games s !! team_index n (games s) (current_game_index s) = Some g.

Abbreviation interrupted := (interrupted is_live WARMUP n s).

Lemma advance_check (k : bool -> Py Game) :
  (check <- (if rotation_preferred_team_live_mid_inning (config s)
             then off <- is_offday_for_preferred_team ;; ret (negb off)
             else ret false) ;;
   k check) s = k true s.
Proof using Hflag Hteams Hfull Hplays.
  rewrite Hflag. erewrite (bind_Ret _ _ s); [reflexivity|].
  by rewrite (bind_Ret _ _ _ _ _ (not_offday t ts n s Hteams Hfull Hplays)).
Qed.

Lemma advance_move failed d s1 :
  s1 = set_network_issues failed (tick s) ->
  (i <- game_index_for_preferred_team ;;
   modify (set_current_game_index i) ;;;
   modify (set_game_data (attr_of_option (Some d))) ;;;
   modify (set_needs_refresh false) ;;;
   update_layout_state ;;;
   print_game_data_debug ;;;
   g <- current_game ;;
   ret (Some g)) s1 = (Ret (Some g), interrupted failed d).
Proof using Hteams Hfull Hgame.
  intros ->.
  rewrite (bind_Ret _ _ _ _ _
             (game_index_for_preferred_team_resolved t ts n
                (set_network_issues failed (tick s)) Hteams Hfull)).
  rewrite !bind_modify.
  erewrite bind_Ret by (by apply (update_layout_state_Val _ d)).
  erewrite bind_Ret by (by apply (print_game_data_debug_Val _ d)).
  erewrite bind_Ret by (rewrite current_game_run; apply getitem_Some, Hgame).
  reflexivity.
Qed.

Lemma advance_fetch_failed d0 :
  get_game api (upstream_calls s) (game_id g) = None ->
  game_data s = Val d0 ->
  advance_to_next_game s = (Ret g, interrupted true d0).
Proof using Hflag Hteams Hfull Hplays Hgame.
  intros Hget Hd. unfold advance_to_next_game. rewrite bind_gets, advance_check.
  erewrite (bind_Ret _ _ s); cycle 1.
  { rewrite (bind_Ret _ _ _ _ _ (fetch_stale t ts n s g Hteams Hfull Hplays Hgame d0 Hget Hd)).
    erewrite bind_Ret by reflexivity.
    by apply advance_move. }
  reflexivity.
Qed.

Lemma advance_fetch_failed_unset :
  get_game api (upstream_calls s) (game_id g) = None ->
  game_data s = Unset ->
  advance_to_next_game s = (Raise AttributeError, tick s).
Proof using Hflag Hteams Hfull Hplays Hgame.
  intros Hget Hd. unfold advance_to_next_game. rewrite bind_gets, advance_check.
  erewrite (bind_Raise _ _ s); cycle 1.
  { by rewrite (bind_Raise _ _ _ _ _
                  (fetch_unset t ts n s g Hteams Hfull Hplays Hgame Hget Hd)). }
  reflexivity.
Qed.

Lemma advance_live_mid_inning d st :
  get_game api (upstream_calls s) (game_id g) = Some d ->
  is_live (detailedState d) = true ->
  inningState d = Some st ->
  is_inning_break st = false ->
  advance_to_next_game s = (Ret g, interrupted false d).
Proof using Hflag Hteams Hfull Hplays Hgame.
  intros Hget Hlive Hst Hbreak. unfold advance_to_next_game.
  rewrite bind_gets, advance_check.
  erewrite (bind_Ret _ _ s); cycle 1.
  { rewrite (bind_Ret _ _ _ _ _ (fetch_ok t ts n s g Hteams Hfull Hplays Hgame d Hget)).
    erewrite bind_Ret; cycle 1.
    { unfold interrupt_condition. rewrite bind_gets. simpl. rewrite bind_ret.
      rewrite Hlive, Hst, Hbreak. reflexivity. }
    by apply advance_move. }
  reflexivity.
Qed.

Lemma advance_fall_through d :
  get_game api (upstream_calls s) (game_id g) = Some d ->
  is_live (detailedState d) = false
  \/ (exists st, inningState d = Some st /\ is_inning_break st = true) ->
  advance_to_next_game s = rotate (set_network_issues false (tick s)).
Proof using Hflag Hteams Hfull Hplays Hgame.
  intros Hget Hcase. unfold advance_to_next_game.
  rewrite bind_gets, advance_check.
  erewrite (bind_Ret _ _ s); cycle 1.
  { rewrite (bind_Ret _ _ _ _ _ (fetch_ok t ts n s g Hteams Hfull Hplays Hgame d Hget)).
    erewrite bind_Ret; cycle 1.
    { unfold interrupt_condition. rewrite bind_gets. simpl. rewrite bind_ret.
      destruct Hcase as [Hlive|(st & Hst & Hbreak)].
      - rewrite Hlive. reflexivity.
      - rewrite Hst, Hbreak. destruct (is_live (detailedState d)); reflexivity. }
    reflexivity. }
  reflexivity.
Qed.

Lemma advance_live_no_inning d :
  get_game api (upstream_calls s) (game_id g) = Some d ->
  is_live (detailedState d) = true ->
  inningState d = None ->
  advance_to_next_game s = (Raise KeyError, set_network_issues false (tick s)).
Proof using Hflag Hteams Hfull Hplays Hgame.
  intros Hget Hlive Hst. unfold advance_to_next_game.
  rewrite bind_gets, advance_check.
  erewrite (bind_Raise _ _ s); cycle 1.
  { rewrite (bind_Ret _ _ _ _ _ (fetch_ok t ts n s g Hteams Hfull Hplays Hgame d Hget)).
    erewrite bind_Raise; cycle 1.
    { unfold interrupt_condition. rewrite bind_gets. simpl. rewrite bind_ret.
      rewrite Hlive, Hst. reflexivity. }
    reflexivity. }
  reflexivity.
Qed.

End Interrupt.

(** *** [refresh_game_data] *)

Lemma refresh_game_data_ok s g d :
  games s !! current_game_index s = Some g ->
  get_game api (upstream_calls s) (game_id g) = Some d ->
  refresh_game_data s
  = (Ret tt, set_network_issues false
               (set_needs_refresh false
                  (set_layout_state (layout_of d) (set_game_data (Val d) (tick s))))).
Proof.
  intros Hg Hget. unfold refresh_game_data.
  erewrite (bind_Ret _ _ s); cycle 1.
  { erewrite try_Ret; cycle 1.
    { erewrite bind_Ret by (rewrite current_game_run; apply getitem_Some, Hg).
      unfold statsapi_get.
      erewrite bind_Ret
        by apply (upstream_Some (fun k => get_game api k (game_id g)) s d Hget).
      reflexivity. }
    erewrite bind_Ret by (by apply (update_layout_state_Val _ d)).
    rewrite bind_modify.
    erewrite bind_Ret by (by apply (print_game_data_debug_Val _ d)).
    rewrite bind_modify. reflexivity. }
  reflexivity.
Qed.

Lemma refresh_game_data_failed s g :
  games s !! current_game_index s = Some g ->
  get_game api (upstream_calls s) (game_id g) = None ->
  refresh_game_data s = move_on (set_network_issues true (tick s)).
Proof.
  intros Hg Hget. unfold refresh_game_data.
  erewrite (bind_Ret _ _ s); cycle 1.
  { erewrite try_Raise; cycle 1.
    { erewrite bind_Ret by (rewrite current_game_run; apply getitem_Some, Hg).
      unfold statsapi_get.
      erewrite bind_Raise
        by apply (upstream_None (fun k => get_game api k (game_id g)) s Hget).
      reflexivity. }
    rewrite bind_modify. reflexivity. }
  reflexivity.
Qed.

(** A cursor outside the catalog is caught by the same bare [except]. *)
Lemma refresh_game_data_no_game s :
  games s !! current_game_index s = None ->
  refresh_game_data s = move_on (set_network_issues true s).
Proof.
  intros Hg. unfold refresh_game_data.
  erewrite (bind_Ret _ _ s); cycle 1.
  { erewrite try_Raise; cycle 1.
    { erewrite bind_Raise by (rewrite current_game_run; apply getitem_None, Hg).
      reflexivity. }
    rewrite bind_modify. reflexivity. }
  reflexivity.
Qed.

(** *** Catalog refresh *)

Lemma py_map_getkey ts teams s :
  Forall2 (fun t n => TEAM_FULL !! t = Some n) ts teams ->
  py_map (getkey TEAM_FULL) ts s = (Ret teams, s).
Proof.
  induction 1 as [|t n ts teams Ht _ IH]; [reflexivity|].
  simpl. unfold getkey at 1. rewrite Ht, bind_ret.
  by rewrite (bind_Ret _ _ _ _ _ IH).
Qed.

Lemma py_map_getkey_unknown ts s :
  Exists (fun t => TEAM_FULL !! t = None) ts ->
  py_map (getkey TEAM_FULL) ts s = (Raise KeyError, s).
Proof.
  induction ts as [|t ts IH]; intros Hex; [by apply Exists_nil in Hex|].
  simpl. unfold getkey at 1. destruct (TEAM_FULL !! t) eqn:Ht; [|reflexivity].
  rewrite bind_ret. apply Exists_cons in Hex as [Hex|Hex]; [congruence|].
  by rewrite (bind_Raise _ _ _ _ _ (IH Hex)).
Qed.

Lemma get_games_failed s :
  schedule api (upstream_calls s) (date s) = None ->
  get_games s = (Ret [], set_network_issues true (tick s)).
Proof.
  intros Hs. unfold get_games. rewrite bind_gets. unfold statsapi_schedule.
  by rewrite (try_Raise _ _ _ _ _ _
                (upstream_None (fun k => schedule api k (date s)) s Hs)).
Qed.

Lemma get_games_all s all_games :
  schedule api (upstream_calls s) (date s) = Some all_games ->
  rotation_only_preferred (config s) = false ->
  get_games s = (Ret all_games, set_network_issues false (tick s)).
Proof.
  intros Hs Hflag. unfold get_games. rewrite bind_gets. unfold statsapi_schedule.
  rewrite (try_Ret _ _ _ _ _ _
             (upstream_Some (fun k => schedule api k (date s)) s _ Hs)).
  rewrite bind_modify, bind_gets. simpl. by rewrite Hflag.
Qed.

Lemma get_games_filtered s all_games :
  schedule api (upstream_calls s) (date s) = Some all_games ->
  rotation_only_preferred (config s) = true ->
  get_games s
  = filter_list_of_games TEAM_FULL all_games (preferred_teams (config s))
      (set_network_issues false (tick s)).
Proof.
  intros Hs Hflag. unfold get_games. rewrite bind_gets. unfold statsapi_schedule.
  rewrite (try_Ret _ _ _ _ _ _
             (upstream_Some (fun k => schedule api k (date s)) s _ Hs)).
  rewrite bind_modify, bind_gets. simpl. by rewrite Hflag.
Qed.

Lemma filter_involves teams (gs : list Game) :
  filter (involves teams) gs
  = filter (fun g => away_name g ∈ teams \/ home_name g ∈ teams) gs.
Proof. apply list_filter_iff. intros g. apply involves_iff. Qed.

(** *** Standings refresh *)

Lemma refresh_standings_failed s :
  get_standings api (upstream_calls s) (today s) = None ->
  refresh_standings s = (Ret tt, tick s).
Proof.
  intros Hs. unfold refresh_standings. erewrite try_Raise; [reflexivity|].
  rewrite bind_gets. unfold Standings_new.
  by rewrite (bind_Raise _ _ _ _ _
                (upstream_None (fun k => get_standings api k (today s)) s Hs)).
Qed.

Lemma refresh_standings_ok s st :
  get_standings api (upstream_calls s) (today s) = Some st ->
  refresh_standings s = (Ret tt, set_standings (Val st) (tick s)).
Proof.
  intros Hs. unfold refresh_standings. erewrite try_Ret; [reflexivity|].
  rewrite bind_gets. unfold Standings_new.
  by rewrite (bind_Ret _ _ _ _ _
                (upstream_Some (fun k => get_standings api k (today s)) s st Hs)).
Qed.



(** ** Statements of the specification *)

(** *** Date resolution *)

(** C3: with no demo date configured, the resolved day is decided by the
    two clock reads of the method: it is the calendar date of the first read
    ([datetime.today()]) when the cutoff instant on that date is not after
    the second read ([datetime.now()]), and the date before when that
    instant still lies ahead of the second read; in particular, for a clock
    that reads [T] both times, it is the date of [T] when the cutoff instant
    on [T]'s date is not after [T] and the previous date otherwise.  A
    configured demo date is the resolved day whatever the clock and the
    cutoff are. *)
Theorem parse_today_resolves cfg :
  (forall t_today t_now c,
      demo_configured cfg = false ->
      strptime_hm (end_of_day cfg) = Some c ->
      exists d, parse_today cfg t_today t_now = Ret d
                /\ ((dt_ordinal t_today < dt_ordinal t_now
                     \/ dt_ordinal t_today = dt_ordinal t_now /\ c <= dt_micros t_now)%Z ->
                    dt_ordinal d = dt_ordinal t_today)
                /\ ((dt_ordinal t_now < dt_ordinal t_today
                     \/ dt_ordinal t_today = dt_ordinal t_now /\ dt_micros t_now < c)%Z ->
                    dt_ordinal d = (dt_ordinal t_today - 1)%Z))
  /\ (forall T c,
         demo_configured cfg = false ->
         strptime_hm (end_of_day cfg) = Some c ->
         exists d, parse_today cfg T T = Ret d
                   /\ ((c <= dt_micros T)%Z -> dt_ordinal d = dt_ordinal T)
                   /\ ((dt_micros T < c)%Z -> dt_ordinal d = (dt_ordinal T - 1)%Z))
  /\ (forall str o T1 T2,
         demo_date cfg = Some str -> str <> "" ->
         strptime_ymd str = Some o ->
         parse_today cfg T1 T2 = Ret {| dt_ordinal := o; dt_micros := 0 |}).
Proof.
  assert (Hreads : forall t_today t_now c,
             demo_configured cfg = false ->
             strptime_hm (end_of_day cfg) = Some c ->
             exists d, parse_today cfg t_today t_now = Ret d
               /\ ((dt_ordinal t_today < dt_ordinal t_now
                    \/ dt_ordinal t_today = dt_ordinal t_now /\ c <= dt_micros t_now)%Z ->
                   dt_ordinal d = dt_ordinal t_today)
               /\ ((dt_ordinal t_now < dt_ordinal t_today
                    \/ dt_ordinal t_today = dt_ordinal t_now /\ dt_micros t_now < c)%Z ->
                   dt_ordinal d = (dt_ordinal t_today - 1)%Z)).
  { intros t_today t_now c Hdemo Hc. unfold parse_today. rewrite Hdemo, Hc.
    unfold datetime_gt. cbn [dt_ordinal dt_micros].
    destruct (dt_ordinal t_now <? dt_ordinal t_today)%Z eqn:Hord;
      [apply Z.ltb_lt in Hord|apply Z.ltb_ge in Hord];
      destruct (dt_ordinal t_today =? dt_ordinal t_now)%Z eqn:Heq;
      [apply Z.eqb_eq in Heq|apply Z.eqb_neq in Heq
      |apply Z.eqb_eq in Heq|apply Z.eqb_neq in Heq];
      destruct (dt_micros t_now <? c)%Z eqn:Hlt;
      [apply Z.ltb_lt in Hlt|apply Z.ltb_ge in Hlt|apply Z.ltb_lt in Hlt
      |apply Z.ltb_ge in Hlt|apply Z.ltb_lt in Hlt|apply Z.ltb_ge in Hlt
      |apply Z.ltb_lt in Hlt|apply Z.ltb_ge in Hlt];
      simpl; eexists; (split; [reflexivity|]); simpl; split; lia. }
  split; [exact Hreads|]. split.
  - intros T c Hdemo Hc. destruct (Hreads T T c Hdemo Hc) as (d & Hd & Hge & Hlt).
    exists d. split; [exact Hd|]. split; intros H; [apply Hge|apply Hlt]; lia.
  - intros str o T1 T2 Hstr Hne Ho. unfold parse_today, demo_configured.
    rewrite Hstr. simpl.
    destruct (String.eqb str "") eqn:He; [by apply String.eqb_eq in He|].
    simpl. by rewrite Ho.
Qed.

(** *** Index of the preferred team's game *)

(** C4: with no preferred team the index is the cursor; otherwise, for the
    first preferred team resolved to the name [n], it is the least catalog
    position of a live game of [n] if there is one, else the least position
    of a game of [n], else the cursor; nothing is raised and the state is
    left as it was. *)
Theorem game_index_for_preferred_team_selects s :
  (preferred_teams (config s) = [] ->
   game_index_for_preferred_team s = (Ret (current_game_index s), s))
  /\ (forall t ts n,
         preferred_teams (config s) = t :: ts ->
         TEAM_FULL !! t = Some n ->
         let matching i :=
           exists g, games s !! i = Some g /\ (away_name g = n \/ home_name g = n) in
         let live i :=
           exists g, games s !! i = Some g /\ (away_name g = n \/ home_name g = n)
                     /\ is_live (status g) = true in
         exists r,
           game_index_for_preferred_team s = (Ret r, s)
           /\ ((exists i, live i) -> live r /\ forall j, live j -> r <= j)
           /\ ((forall i, ~ live i) -> (exists i, matching i) ->
               matching r /\ forall j, matching j -> r <= j)
           /\ ((forall i, ~ matching i) -> r = current_game_index s)).
Proof.
  split; [apply game_index_for_preferred_team_none|].
  intros t ts n Hp Ht matching live.
  exists (team_index n (games s) (current_game_index s)).
  split; [by apply (game_index_for_preferred_team_resolved t ts)|].
  split; [|split].
  - intros (i & g & Hi & Hn & Hl).
    destruct (team_index_live n (games s) (current_game_index s) i g Hi)
      as (g' & Hg' & [Hp' Hl'] & Hmin).
    { split; [by apply plays_true|done]. }
    split.
    + exists g'. split; [done|]. split; [by apply plays_true|done].
    + intros j (y & Hj & Hy & Hyl). apply (Hmin j y Hj).
      split; [by apply plays_true|done].
  - intros Hnolive (i & g & Hi & Hn).
    destruct (team_index_first n (games s) (current_game_index s) i g)
      as (g' & Hg' & Hp' & Hmin); [|done|by apply plays_true|].
    { intros j y Hj [Hy Hyl]. apply (Hnolive j). exists y.
      split; [done|]. split; [by apply plays_true|done]. }
    split.
    + exists g'. split; [done|]. by apply plays_true.
    + intros j (y & Hj & Hy). apply (Hmin j y Hj). by apply plays_true.
  - intros Hnone. apply team_index_none. intros j y Hj.
    destruct (plays n y) eqn:Hy; [|done].
    exfalso. apply (Hnone j). exists y. split; [done|]. by apply plays_true.
Qed.

(** *** Cursor increments *)

(** When the off-day test returns [False], a first preferred team is
    configured, it resolves, and one of the games is its. *)
Lemma is_offday_for_preferred_team_false_inv s :
  is_offday_for_preferred_team s = (Ret false, s) ->
  exists t ts n,
    preferred_teams (config s) = t :: ts
    /\ TEAM_FULL !! t = Some n
    /\ existsb (plays n) (games s) = true.
Proof.
  unfold is_offday_for_preferred_team. rewrite bind_gets.
  destruct (preferred_teams (config s)) as [|t ts]; [discriminate|].
  rewrite bind_gets. destruct (TEAM_FULL !! t) as [n|] eqn:Ht.
  - rewrite (bind_Ret _ _ _ _ _ (py_any_resolved t n (games s) s Ht)).
    intros [= Hneg]. exists t, ts, n. split; [done|]. split; [done|].
    by apply negb_false_iff.
  - destruct (games s) as [|g gs]; [discriminate|].
    simpl. unfold getkey. rewrite Ht. discriminate.
Qed.

(** C9: the successor of an in-range cursor [i] over [N] elements is
    [(i+1) mod N] and over an empty list it is 0, for the game cursor and
    for the division cursor over [preferred_divisions] alike.  This
    successor is the cursor [advance_to_next_game] leaves whenever the
    mid-inning interrupt does not apply: when it is switched off, when the
    preferred team has no game, and when the preferred team's game was
    fetched and is not live or is in an inning break.  It is always the
    cursor [advance_to_next_standings] leaves. *)
Theorem cursor_increment_is_modular s :
  let N := length (games s) in
  let i := current_game_index s in
  let M := length (preferred_divisions (config s)) in
  let j := current_division_index s in
  (i < N -> next_game_index s = (Ret ((i + 1) mod N), s))
  /\ (N = 0 -> next_game_index s = (Ret 0, s))
  /\ (j < M -> next_division_index s = (Ret ((j + 1) mod M), s))
  /\ (M = 0 -> next_division_index s = (Ret 0, s))
  /\ (rotation_preferred_team_live_mid_inning (config s) = false
      \/ is_offday_for_preferred_team s = (Ret true, s) ->
      (i < N -> current_game_index (advance_to_next_game s).2 = (i + 1) mod N)
      /\ (N = 0 -> current_game_index (advance_to_next_game s).2 = 0))
  /\ (forall k g d,
         rotation_preferred_team_live_mid_inning (config s) = true ->
         is_offday_for_preferred_team s = (Ret false, s) ->
         game_index_for_preferred_team s = (Ret k, s) ->
         games s !! k = Some g ->
         get_game api (upstream_calls s) (game_id g) = Some d ->
         is_live (detailedState d) = false
         \/ (exists st, inningState d = Some st /\ is_inning_break st = true) ->
         i < N ->
         current_game_index (advance_to_next_game s).2 = (i + 1) mod N)
  /\ (j < M -> current_division_index (advance_to_next_standings s).2 = (j + 1) mod M)
  /\ (M = 0 -> current_division_index (advance_to_next_standings s).2 = 0).
Proof.
  intros N i M j.
  assert (Hrot : rotation_preferred_team_live_mid_inning (config s) = false
                 \/ is_offday_for_preferred_team s = (Ret true, s) ->
                 current_game_index (advance_to_next_game s).2 = next_index N i).
  { intros Hplain.
    assert (Hadv : advance_to_next_game s = rotate s)
      by (destruct Hplain; [by apply advance_plain|by apply advance_offday]).
    rewrite Hadv, rotate_run. cbv zeta. unfold getitem.
    by destruct (games s !! _). }
  assert (Hdiv : current_division_index (advance_to_next_standings s).2 = next_index M j).
  { unfold advance_to_next_standings.
    rewrite (bind_Ret _ _ _ _ _ (next_division_index_run s)), bind_modify.
    unfold current_standings. rewrite !bind_gets.
    cbn [config current_division_index set_current_division_index].
    unfold bind, getitem.
    destruct (preferred_divisions (config s) !! _) as [dn|]; simpl; [|done].
    unfold standings_for, bind, gets. simpl.
    destruct (standings s) as [| |st]; simpl; try done.
    by destruct (List.find _ _). }
  split; [|split; [|split; [|split; [|split; [|split; [|split]]]]]].
  - intros Hi. by rewrite next_game_index_run, next_index_mod.
  - intros Hlen. rewrite next_game_index_run. fold N. by rewrite Hlen.
  - intros Hj. by rewrite next_division_index_run, next_index_mod.
  - intros Hlen. rewrite next_division_index_run. fold M. by rewrite Hlen.
  - intros Hplain. rewrite (Hrot Hplain). split.
    + intros Hi. by apply next_index_mod.
    + intros Hlen. by rewrite Hlen.
  - intros k g d Hflag Hoff Hidx Hg Hget Hcase Hi.
    destruct (is_offday_for_preferred_team_false_inv s Hoff)
      as (t & ts & n & Hp & Ht & Hplays).
    rewrite (game_index_for_preferred_team_resolved t ts n s Hp Ht) in Hidx.
    injection Hidx as <-.
    rewrite (advance_fall_through t ts n s g Hflag Hp Ht Hplays Hg d Hget Hcase).
    rewrite rotate_run. cbv zeta.
    cbn [games current_game_index set_network_issues tick].
    unfold getitem. destruct (games s !! next_index _ _); simpl; by apply next_index_mod.
  - intros Hj. rewrite Hdiv. by apply next_index_mod.
  - intros Hlen. rewrite Hdiv. by rewrite Hlen.
Qed.

(** *** Catalog refresh *)

(** C5: a catalog refresh whose list-games request fails leaves an empty
    catalog and the flag failed; one whose request succeeds clears the flag
    and installs the provider's list, as it is when [rotation_only_preferred]
    is off, and restricted, in order, to the games whose home or away name is
    one of the resolved preferred teams when it is on. *)
Theorem refresh_games_replaces_catalog s :
  (schedule api (upstream_calls s) (date s) = None ->
   exists s', refresh_games s = (Ret tt, s')
              /\ games s' = [] /\ network_issues s' = true)
  /\ (forall all_games,
         schedule api (upstream_calls s) (date s) = Some all_games ->
         (rotation_only_preferred (config s) = false ->
          exists s', refresh_games s = (Ret tt, s')
                     /\ games s' = all_games /\ network_issues s' = false)
         /\ (forall teams,
                rotation_only_preferred (config s) = true ->
                Forall2 (fun t n => TEAM_FULL !! t = Some n)
                        (preferred_teams (config s)) teams ->
                exists s', refresh_games s = (Ret tt, s')
                           /\ games s'
                              = filter (fun g => away_name g ∈ teams \/ home_name g ∈ teams)
                                       all_games
                           /\ network_issues s' = false)).
Proof.
  split; [|intros all_games Hs; split].
  - intros Hs. eexists. unfold refresh_games.
    rewrite (bind_Ret _ _ _ _ _ (get_games_failed s Hs)). by split.
  - intros Hflag. eexists. unfold refresh_games.
    rewrite (bind_Ret _ _ _ _ _ (get_games_all s all_games Hs Hflag)). by split.
  - intros teams Hflag Hteams. eexists. unfold refresh_games.
    erewrite bind_Ret; cycle 1.
    { rewrite (get_games_filtered s all_games Hs Hflag). unfold filter_list_of_games.
      erewrite bind_Ret by (apply py_map_getkey, Hteams). reflexivity. }
    split; [reflexivity|]. split; [apply filter_involves|reflexivity].
Qed.

(** *** Standings *)



Lemma current_standings_found s dn st d :
  preferred_divisions (config s) !! current_division_index s = Some dn ->
  standings s = Val st ->
  List.find (fun d => String.eqb (name d) dn) (divisions st) = Some d ->
  current_standings s = (Ret d, s).
Proof.
  intros Hdn Hst Hd. unfold current_standings. rewrite !bind_gets.
  rewrite (bind_Ret _ _ _ _ _ (getitem_Some _ _ _ s Hdn)).
  unfold standings_for. by rewrite bind_gets, Hst, Hd.
Qed.

Lemma current_standings_absent s dn st :
  preferred_divisions (config s) !! current_division_index s = Some dn ->
  standings s = Val st ->
  List.find (fun d => String.eqb (name d) dn) (divisions st) = None ->
  current_standings s = (Raise StopIteration, s).
Proof.
  intros Hdn Hst Hd. unfold current_standings. rewrite !bind_gets.
  rewrite (bind_Ret _ _ _ _ _ (getitem_Some _ _ _ s Hdn)).
  unfold standings_for. by rewrite bind_gets, Hst, Hd.
Qed.


(** *** Detail of the preferred team's game *)

(** X22: [fetch_preferred_team_game_data] returns [None], touching nothing,
    when no preferred team is configured or the preferred team has no game
    in the catalog; when it has one, a failed fetch on an object that has a
    detail record cached returns that record, leaves it cached and sets the
    flag, and a successful fetch returns the fetched detail and clears the
    flag. *)
Theorem fetch_preferred_team_game_data_outcomes s :
  (preferred_teams (config s) = [] ->
   fetch_preferred_team_game_data s = (Ret None, s))
  /\ (forall t ts n,
         preferred_teams (config s) = t :: ts ->
         TEAM_FULL !! t = Some n ->
         (existsb (plays n) (games s) = false ->
          fetch_preferred_team_game_data s = (Ret None, s))
         /\ (existsb (plays n) (games s) = true ->
             exists g,
               games s !! team_index n (games s) (current_game_index s) = Some g
               /\ plays n g = true
               /\ (forall cached,
                     get_game api (upstream_calls s) (game_id g) = None ->
                     game_data s = Val cached ->
                     exists s',
                       fetch_preferred_team_game_data s = (Ret (Some cached), s')
                       /\ game_data s' = Val cached
                       /\ network_issues s' = true)
               /\ (forall fetched,
                     get_game api (upstream_calls s) (game_id g) = Some fetched ->
                     exists s',
                       fetch_preferred_team_game_data s = (Ret (Some fetched), s')
                       /\ network_issues s' = false))).
Proof.
  split.
  - intros Hp. by apply fetch_offday, is_offday_for_preferred_team_none.
  - intros t ts n Hp Ht. split.
    + intros Hno. apply fetch_offday.
      rewrite (is_offday_for_preferred_team_resolved t ts n) by done. by rewrite Hno.
    + intros Hplays.
      destruct (team_index_plays n (games s) (current_game_index s) Hplays) as (g & Hg & Hpg).
      exists g. split; [done|]. split; [done|]. split.
      * intros cached Hget Hd. eexists.
        split; [by apply (fetch_stale t ts n s g)|]. by split.
      * intros fetched Hget. eexists.
        split; [by apply (fetch_ok t ts n s g)|]. done.
Qed.

(** *** Reading the current selection *)

(** C6 (amended): reading the current game returns the game under the
    cursor when the cursor is inside the catalog and raises [IndexError]
    otherwise, so always on an empty catalog; looking up the current
    division returns the first division of the Standings that bears the
    configured name and raises [StopIteration] when none does. *)
Theorem current_selection_outcomes s :
  (forall g, games s !! current_game_index s = Some g -> current_game s = (Ret g, s))
  /\ (length (games s) <= current_game_index s -> current_game s = (Raise IndexError, s))
  /\ (games s = [] -> current_game s = (Raise IndexError, s))
  /\ (forall dn st,
         preferred_divisions (config s) !! current_division_index s = Some dn ->
         standings s = Val st ->
         (forall d, List.find (fun d => String.eqb (name d) dn) (divisions st) = Some d ->
                    current_standings s = (Ret d, s) /\ name d = dn /\ d ∈ divisions st)
         /\ ((forall d, d ∈ divisions st -> name d <> dn) ->
             current_standings s = (Raise StopIteration, s))).
Proof.
  split; [|split; [|split]].
  - intros g Hg. rewrite current_game_run. by apply getitem_Some.
  - intros Hlen. rewrite current_game_run. by apply getitem_None, lookup_ge_None.
  - intros Hnil. rewrite current_game_run. apply getitem_None. by rewrite Hnil.
  - intros dn st Hdn Hst. split.
    + intros d Hd. split; [by eapply current_standings_found|].
      apply find_some in Hd as [Hin Hname].
      split; [by apply String.eqb_eq|by apply list_elem_of_In].
    + intros Hnone. eapply current_standings_absent; [done|done|].
      destruct (List.find _ _) as [d|] eqn:Hd; [|done].
      apply find_some in Hd as [Hin Hname]. exfalso.
      apply (Hnone d); [by apply list_elem_of_In|by apply String.eqb_eq].
Qed.

(** *** Detail refresh *)

Lemma py_any_stateless t (gs : list Game) :
  exists r, forall s,
    py_any (fun g => x <- getkey TEAM_FULL t ;; ret (plays x g)) gs s = (r, s).
Proof.
  unfold getkey. destruct (TEAM_FULL !! t) as [n|].
  - exists (Ret (existsb (plays n) gs)). intros s.
    induction gs as [|g gs IH]; [reflexivity|].
    simpl. unfold bind at 1. unfold bind at 1. simpl.
    destruct (plays n g); simpl; [reflexivity|]. exact IH.
  - destruct gs as [|g gs]; [by exists (Ret false)|]. by exists (Raise KeyError).
Qed.

(** The off-day test reads the configuration and the catalog only. *)
Lemma is_offday_for_preferred_team_frame s s1 r :
  config s1 = config s -> games s1 = games s ->
  is_offday_for_preferred_team s = (r, s) ->
  is_offday_for_preferred_team s1 = (r, s1).
Proof.
  intros Hc Hg. unfold is_offday_for_preferred_team. rewrite !bind_gets, Hc.
  destruct (preferred_teams (config s)) as [|t ts]; [by intros [= <-]|].
  rewrite !bind_gets, Hg.
  destruct (py_any_stateless t (games s)) as [r0 Hr0].
  unfold bind. rewrite !Hr0. destruct r0; by intros [= <-].
Qed.

(** C2 (amended): when the detail fetch for the game under the cursor
    fails, [refresh_game_data] returns normally with the flag failed and the
    cursor unchanged if [rotation_enabled] is off; with the flag failed and
    the cursor advanced by one modulo the catalog length if
    [rotation_enabled] is on and the mid-inning interrupt does not apply
    (it is switched off, or the preferred team has no game); and in every
    case with [rotation_enabled] on it hands over to
    [advance_to_next_game], run on the state with the flag failed. *)
Theorem refresh_game_data_fetch_failed s g :
  games s !! current_game_index s = Some g ->
  get_game api (upstream_calls s) (game_id g) = None ->
  (rotation_enabled (config s) = false ->
   refresh_game_data s = (Ret tt, set_network_issues true (tick s)))
  /\ (rotation_enabled (config s) = true ->
      refresh_game_data s
      = (_ <- advance_to_next_game ;; ret tt) (set_network_issues true (tick s)))
  /\ (rotation_enabled (config s) = true ->
      rotation_preferred_team_live_mid_inning (config s) = false
      \/ is_offday_for_preferred_team s = (Ret true, s) ->
      exists s',
        refresh_game_data s = (Ret tt, s')
        /\ network_issues s' = true
        /\ current_game_index s' = (current_game_index s + 1) mod length (games s)).
Proof.
  intros Hg Hget.
  pose proof (refresh_game_data_failed s g Hg Hget) as Hrun.
  unfold move_on in Hrun. rewrite bind_gets in Hrun.
  cbn [config set_network_issues tick] in Hrun.
  split; [|split].
  - intros Hrot. by rewrite Hrun, Hrot.
  - intros Hrot. by rewrite Hrun, Hrot.
  - intros Hrot Hplain. rewrite Hrun, Hrot.
    set (s1 := set_network_issues true (tick s)).
    assert (Hadv : advance_to_next_game s1 = rotate s1).
    { destruct Hplain as [Hflag|Hoff]; [by apply advance_plain|].
      apply advance_offday. by apply (is_offday_for_preferred_team_frame s). }
    pose proof (lookup_lt_Some _ _ _ Hg) as Hlt.
    assert (Hlen : 0 < length (games s)) by lia.
    destruct (lookup_lt_is_Some_2 (games s)
                (next_index (length (games s)) (current_game_index s))
                (next_index_lt _ _ Hlen)) as [g' Hg'].
    exists (set_current_game_index
              (next_index (length (games s)) (current_game_index s)) s1).
    split.
    + erewrite bind_Ret; [reflexivity|].
      rewrite Hadv, rotate_run. cbv zeta. by apply getitem_Some.
    + split; [reflexivity|]. by apply next_index_mod.
Qed.

(** ** Further properties of the class *)

Variable is_fresh : string -> bool.

Abbreviation games_live := (games_live is_live WARMUP is_fresh).
Abbreviation init := (init TEAM_FULL is_live strptime_ymd strptime_hm api).

(** *** What an operation leaves untouched *)

Section Keeps.

Context (R : Data -> Data -> Prop) `{!Reflexive R} `{!Transitive R}.

Lemma keeps_ret {A} (a : A) : keeps R (ret a).
Proof using Type*. intros s. simpl. reflexivity. Qed.

Lemma keeps_raise {A} e : keeps R (@raise A e).
Proof using Type*. intros s. simpl. reflexivity. Qed.

Lemma keeps_gets {A} (f : Data -> A) : keeps R (gets f).
Proof using Type*. intros s. simpl. reflexivity. Qed.

Lemma keeps_modify f : (forall s, R s (f s)) -> keeps R (modify f).
Proof using Type. intros Hf s. apply Hf. Qed.

Lemma keeps_bind {A B} (m : Py A) (k : A -> Py B) :
  keeps R m -> (forall a, keeps R (k a)) -> keeps R (bind m k).
Proof using Type*.
  intros Hm Hk s. unfold bind. specialize (Hm s).
  destruct (m s) as [[a|e] s1]; simpl in *; [|done].
  etransitivity; [exact Hm|apply Hk].
Qed.

Lemma keeps_try {A B} (body : Py A) (handler : Py B) (orelse : A -> Py B) :
  keeps R body -> keeps R handler -> (forall a, keeps R (orelse a)) ->
  keeps R (try_except_else body handler orelse).
Proof using Type*.
  intros Hb Hh Ho s. unfold try_except_else. specialize (Hb s).
  destruct (body s) as [[a|e] s1]; simpl in *;
    (etransitivity; [exact Hb|]); [apply Ho|apply Hh].
Qed.

Lemma keeps_upstream {A} (answer : nat -> option A) :
  (forall s, R s (tick s)) -> keeps R (upstream answer).
Proof using Type.
  intros Ht s. unfold upstream. destruct (answer _); apply Ht.
Qed.

Lemma keeps_getitem {A} (l : list A) i : keeps R (getitem l i).
Proof using Type*. unfold getitem. destruct (l !! i); [apply keeps_ret|apply keeps_raise]. Qed.

Lemma keeps_getkey d k : keeps R (getkey d k).
Proof using Type*. unfold getkey. destruct (d !! k); [apply keeps_ret|apply keeps_raise]. Qed.

Lemma keeps_py_any {A} (f : A -> Py bool) l :
  (forall x, keeps R (f x)) -> keeps R (py_any f l).
Proof using Type*.
  intros Hf. induction l as [|x l IH]; [apply keeps_ret|].
  simpl. apply keeps_bind; [apply Hf|]. intros [|]; [apply keeps_ret|exact IH].
Qed.

Lemma keeps_py_next {A} (p : A -> Py bool) l (d : A) :
  (forall x, keeps R (p x)) -> keeps R (py_next p l d).
Proof using Type*.
  intros Hp. induction l as [|x l IH]; [apply keeps_ret|].
  simpl. apply keeps_bind; [apply Hp|]. intros [|]; [apply keeps_ret|exact IH].
Qed.

Lemma keeps_py_map {A B} (f : A -> Py B) l :
  (forall x, keeps R (f x)) -> keeps R (py_map f l).
Proof using Type*.
  intros Hf. induction l as [|x l IH]; [apply keeps_ret|].
  simpl. apply keeps_bind; [apply Hf|]. intros y.
  apply keeps_bind; [exact IH|]. intros ys. apply keeps_ret.
Qed.

Lemma keeps_getattr_game_data : keeps R getattr_game_data.
Proof using Type*.
  intros s. unfold getattr_game_data. destruct (game_data s); simpl; reflexivity.
Qed.

Lemma keeps_subscript o : keeps R (subscript o).
Proof using Type*. destruct o; [apply keeps_ret|apply keeps_raise]. Qed.

End Keeps.

(** One step of a frame proof: split the operation along its syntax. *)
Ltac keeps_step :=
  first
    [ apply keeps_ret; tc_solve | apply keeps_raise; tc_solve
    | apply keeps_gets; tc_solve
    | apply keeps_getitem; tc_solve | apply keeps_getkey; tc_solve
    | apply keeps_getattr_game_data; tc_solve
    | apply keeps_subscript; tc_solve
    | apply keeps_modify; intros ?; by repeat split
    | apply keeps_upstream; intros ?; by repeat split
    | apply keeps_bind; try tc_solve; [|intros ?]
    | apply keeps_try; try tc_solve; [| |intros ?]
    | apply keeps_py_any; try tc_solve; intros ?
    | apply keeps_py_next; try tc_solve; intros ?
    | apply keeps_py_map; try tc_solve; intros ?
    | match goal with
      | |- keeps _ (if ?b then _ else _) => destruct b
      | |- keeps _ (match ?x with _ => _ end) => destruct x
      end
    | progress cbv beta zeta ].

Global Instance same_standings_side_refl : Reflexive same_standings_side.
Proof. intros s. by repeat split. Qed.

Global Instance same_standings_side_trans : Transitive same_standings_side.
Proof.
  intros s1 s2 s3 (H1 & H2 & H3 & H4) (K1 & K2 & K3 & K4).
  repeat split; congruence.
Qed.

Global Instance same_catalog_refl : Reflexive same_catalog.
Proof. intros s. split; [reflexivity|done]. Qed.

Global Instance same_catalog_trans : Transitive same_catalog.
Proof.
  intros s1 s2 s3 [H1 H2] [K1 K2]. split; [by etransitivity|congruence].
Qed.

Global Instance same_game_side_refl : Reflexive same_game_side.
Proof. intros s. by repeat split. Qed.

Global Instance same_game_side_trans : Transitive same_game_side.
Proof.
  intros s1 s2 s3 (H1 & H2 & H3 & H4 & H5 & H6 & H7 & H8)
         (K1 & K2 & K3 & K4 & K5 & K6 & K7 & K8).
  repeat split; congruence.
Qed.

Global Instance same_on_refl {X} (f : Data -> X) : Reflexive (same_on f).
Proof. intros s. reflexivity. Qed.

Global Instance same_on_trans {X} (f : Data -> X) : Transitive (same_on f).
Proof. intros s1 s2 s3 H1 H2. unfold same_on in *. congruence. Qed.

(** *** The selectors are read-only *)

Lemma game_index_for_readonly t : keeps eq (game_index_for t).
Proof.
  unfold game_index_for. repeat keeps_step.
Qed.

Lemma game_index_for_preferred_team_readonly : keeps eq game_index_for_preferred_team.
Proof.
  unfold game_index_for_preferred_team. repeat keeps_step.
Qed.

Lemma is_offday_for_preferred_team_readonly : keeps eq is_offday_for_preferred_team.
Proof. unfold is_offday_for_preferred_team. repeat keeps_step. Qed.

Lemma current_game_readonly : keeps eq current_game.
Proof. unfold current_game. repeat keeps_step. Qed.

Lemma standings_for_readonly dn : keeps eq (standings_for dn).
Proof. unfold standings_for. repeat keeps_step. Qed.

Lemma current_standings_readonly : keeps eq current_standings.
Proof. unfold current_standings. repeat keeps_step. Qed.

Lemma standings_for_preferred_division_readonly :
  keeps eq standings_for_preferred_division.
Proof.
  unfold standings_for_preferred_division. repeat keeps_step.
Qed.

Lemma games_live_readonly : keeps eq games_live.
Proof. unfold games_live. repeat keeps_step. Qed.

Lemma is_offday_readonly : keeps eq is_offday.
Proof. unfold is_offday. repeat keeps_step. Qed.

Lemma interrupt_condition_readonly o : keeps eq (interrupt_condition o).
Proof. unfold interrupt_condition, subscript. repeat keeps_step. Qed.

Lemma print_game_data_debug_readonly : keeps eq print_game_data_debug.
Proof.
  unfold print_game_data_debug, subscript. repeat keeps_step.
Qed.

(** X1: the selectors ([current_game], [current_standings],
    [standings_for_preferred_division], [game_index_for_preferred_team],
    [is_offday], [is_offday_for_preferred_team], [games_live]) leave the
    object exactly as it was, whether they return or raise. *)
Theorem selectors_are_read_only s :
  (current_game s).2 = s
  /\ (current_standings s).2 = s
  /\ (standings_for_preferred_division s).2 = s
  /\ (game_index_for_preferred_team s).2 = s
  /\ (is_offday s).2 = s
  /\ (is_offday_for_preferred_team s).2 = s
  /\ (games_live s).2 = s.
Proof.
  repeat apply conj; symmetry.
  - apply current_game_readonly.
  - apply current_standings_readonly.
  - apply standings_for_preferred_division_readonly.
  - apply game_index_for_preferred_team_readonly.
  - apply is_offday_readonly.
  - apply is_offday_for_preferred_team_readonly.
  - apply games_live_readonly.
Qed.

(** *** The two rotations do not interfere *)

Lemma fetch_keeps_catalog : keeps same_catalog fetch_preferred_team_game_data.
Proof. unfold fetch_preferred_team_game_data, statsapi_get. repeat keeps_step. Qed.

Lemma advance_keeps_catalog : keeps same_catalog advance_to_next_game.
Proof.
  unfold advance_to_next_game, fetch_preferred_team_game_data, statsapi_get,
    interrupt_condition, subscript, update_layout_state, print_game_data_debug.
  repeat keeps_step.
Qed.

Lemma refresh_game_data_keeps_catalog : keeps same_catalog refresh_game_data.
Proof.
  unfold refresh_game_data. keeps_step.
  - unfold statsapi_get, update_layout_state, print_game_data_debug, subscript.
    repeat keeps_step.
  - destruct a; [keeps_step|]. unfold move_on. keeps_step; [keeps_step|].
    destruct (rotation_enabled a); [|keeps_step].
    keeps_step; [apply advance_keeps_catalog|keeps_step].
Qed.

Lemma refresh_games_keeps_standings_side : keeps same_standings_side refresh_games.
Proof.
  unfold refresh_games, get_games, statsapi_schedule, filter_list_of_games.
  repeat keeps_step.
Qed.

Lemma refresh_games_keeps_cursor : keeps (same_on current_game_index) refresh_games.
Proof.
  unfold refresh_games, get_games, statsapi_schedule, filter_list_of_games.
  repeat keeps_step.
Qed.

Lemma refresh_standings_keeps_game_side : keeps same_game_side refresh_standings.
Proof. unfold refresh_standings, Standings_new. repeat keeps_step. Qed.

Lemma advance_to_next_standings_keeps_game_side :
  keeps same_game_side advance_to_next_standings.
Proof.
  unfold advance_to_next_standings, next_division_index, current_standings, standings_for.
  repeat keeps_step.
Qed.

(** X2: the game operations ([fetch_preferred_team_game_data],
    [advance_to_next_game], [refresh_game_data]) never change the catalog,
    the standings, the division cursor, the configuration or the sports day;
    [refresh_games] changes none of the latter four and does not move the
    game cursor; the standings operations ([refresh_standings],
    [advance_to_next_standings]) never change the catalog, the game cursor,
    the cached detail, the refresh mark, the network flag or the layout. *)
Theorem rotations_are_independent s :
  same_catalog s (after fetch_preferred_team_game_data s)
  /\ same_catalog s (after advance_to_next_game s)
  /\ same_catalog s (after refresh_game_data s)
  /\ same_standings_side s (after refresh_games s)
  /\ current_game_index (after refresh_games s) = current_game_index s
  /\ same_game_side s (after refresh_standings s)
  /\ same_game_side s (after advance_to_next_standings s).
Proof.
  split; [apply fetch_keeps_catalog|].
  split; [apply advance_keeps_catalog|].
  split; [apply refresh_game_data_keeps_catalog|].
  split; [apply refresh_games_keeps_standings_side|].
  split; [apply refresh_games_keeps_cursor|].
  split; [apply refresh_standings_keeps_game_side|].
  apply advance_to_next_standings_keeps_game_side.
Qed.

(** *** What [advance_to_next_game] returns *)

Lemma bind_inv {A B} (m : Py A) (k : A -> Py B) s b s' :
  bind m k s = (Ret b, s') ->
  exists a s1, m s = (Ret a, s1) /\ k a s1 = (Ret b, s').
Proof.
  unfold bind. destruct (m s) as [[a|e] s1]; [|discriminate]. eauto.
Qed.

Lemma current_game_inv s g s' :
  current_game s = (Ret g, s') ->
  s' = s /\ games s !! current_game_index s = Some g.
Proof.
  rewrite current_game_run. unfold getitem.
  destruct (games s !! current_game_index s) as [g'|]; [|discriminate].
  intros [= <- <-]. done.
Qed.

Lemma rotate_inv s g s' :
  rotate s = (Ret g, s') ->
  s' = set_current_game_index (next_index (length (games s)) (current_game_index s)) s
  /\ games s' !! current_game_index s' = Some g.
Proof.
  rewrite rotate_run. cbv zeta. unfold getitem.
  destruct (games s !! _) as [g'|] eqn:Hg; [|discriminate].
  intros [= <- <-]. done.
Qed.

Ltac bind_inv H :=
  let a := fresh "a" in
  let s1 := fresh "s" in
  let H1 := fresh "Hstep" in
  apply bind_inv in H as (a & s1 & H1 & H).

(** X3: whenever [advance_to_next_game] returns, the catalog is the one it
    started from and the game returned is the game under the cursor it
    leaves, which is therefore inside the catalog; [current_game] called next
    returns the same game. *)
Theorem advance_returns_game_under_cursor s g s' :
  advance_to_next_game s = (Ret g, s') ->
  games s' = games s
  /\ games s' !! current_game_index s' = Some g
  /\ current_game_index s' < length (games s)
  /\ current_game s' = (Ret g, s').
Proof.
  intros Hrun.
  assert (Hgames : games s' = games s).
  { pose proof (advance_keeps_catalog s) as [_ Hg]. by rewrite Hrun in Hg. }
  assert (Hcur : games s' !! current_game_index s' = Some g).
  { clear Hgames. unfold advance_to_next_game in Hrun.
    bind_inv Hrun. bind_inv Hrun. bind_inv Hrun.
    destruct a1 as [g0|].
    - injection Hrun as -> ->.
      destruct a0; [|discriminate].
      bind_inv Hstep1. bind_inv Hstep1. destruct a1; [|discriminate].
      do 6 bind_inv Hstep1. bind_inv Hstep1.
      injection Hstep1 as -> ->.
      match goal with
      | H : current_game _ = (Ret _, _) |- _ => by apply current_game_inv in H as [-> ?]
      end.
    - by apply rotate_inv in Hrun as [_ ?]. }
  split; [done|]. split; [done|].
  split; [rewrite <- Hgames; by eapply lookup_lt_Some|].
  rewrite current_game_run. by apply getitem_Some.
Qed.

(** *** The catalog filter *)

(** X4: when every team of the filter resolves, [__filter_list_of_games]
    returns, without touching the object, a sublist of the games (relative
    order kept) that holds exactly the games whose away or home name is one
    of the resolved names; filtering the result again changes nothing. *)
Theorem filter_list_of_games_keeps_matching gs ts teams s :
  Forall2 (fun t n => TEAM_FULL !! t = Some n) ts teams ->
  exists kept,
    filter_list_of_games TEAM_FULL gs ts s = (Ret kept, s)
    /\ kept `sublist_of` gs
    /\ (forall g, g ∈ kept <-> g ∈ gs /\ (away_name g ∈ teams \/ home_name g ∈ teams))
    /\ filter_list_of_games TEAM_FULL kept ts s = (Ret kept, s).
Proof.
  intros Hts. exists (filter (involves teams) gs).
  assert (Hrun : forall l, filter_list_of_games TEAM_FULL l ts s
                           = (Ret (filter (involves teams) l), s)).
  { intros l. unfold filter_list_of_games.
    by rewrite (bind_Ret _ _ _ _ _ (py_map_getkey ts teams s Hts)). }
  split; [apply Hrun|]. split; [apply sublist_filter|]. split.
  - intros g. rewrite list_elem_of_filter, involves_iff.
    split; intros [? ?]; by split.
  - rewrite Hrun. do 2 f_equal. rewrite list_filter_filter.
    apply list_filter_iff. intros g. split; [by intros [? _]|intros ?; by split].
Qed.

(** X5: when [rotation_only_preferred] is on and a preferred team is not
    in [TEAM_FULL], a catalog refresh whose list-games request succeeded
    raises [KeyError] (whatever the provider's list, even an empty one): the
    flag has been cleared, the request is counted, and the previous catalog
    stays in place. *)
Theorem refresh_games_unknown_team s all_games :
  schedule api (upstream_calls s) (date s) = Some all_games ->
  rotation_only_preferred (config s) = true ->
  Exists (fun t => TEAM_FULL !! t = None) (preferred_teams (config s)) ->
  refresh_games s = (Raise KeyError, set_network_issues false (tick s))
  /\ games (after refresh_games s) = games s.
Proof.
  intros Hs Hflag Hex.
  assert (Hrun : refresh_games s = (Raise KeyError, set_network_issues false (tick s))).
  { unfold refresh_games. erewrite bind_Raise; [reflexivity|].
    rewrite (get_games_filtered s all_games Hs Hflag). unfold filter_list_of_games.
    by rewrite (bind_Raise _ _ _ _ _ (py_map_getkey_unknown _ _ Hex)). }
  split; [exact Hrun|]. unfold after. by rewrite Hrun.
Qed.

(** *** Off days *)

Lemma py_any_unknown t g gs s :
  TEAM_FULL !! t = None ->
  py_any (fun g => x <- getkey TEAM_FULL t ;; ret (plays x g)) (g :: gs) s
  = (Raise KeyError, s).
Proof. intros Ht. simpl. unfold getkey. rewrite Ht. reflexivity. Qed.

(** X6: [is_offday_for_preferred_team] returns [True] when no preferred
    team is configured and when the catalog is empty (then even for a team
    [TEAM_FULL] does not know, and so whenever [is_offday] does); for a first
    preferred team resolved to [n] it returns [True] exactly when no game of
    the catalog has [n] as away or home name; on a non-empty catalog with an
    unknown first preferred team it raises [KeyError]. *)
Theorem is_offday_for_preferred_team_outcomes s :
  (preferred_teams (config s) = [] -> is_offday_for_preferred_team s = (Ret true, s))
  /\ (games s = [] -> is_offday_for_preferred_team s = (Ret true, s))
  /\ (is_offday s = (Ret true, s) -> is_offday_for_preferred_team s = (Ret true, s))
  /\ (forall t ts n,
         preferred_teams (config s) = t :: ts -> TEAM_FULL !! t = Some n ->
         exists b, is_offday_for_preferred_team s = (Ret b, s)
                   /\ (b = true <->
                       forall g, g ∈ games s -> away_name g <> n /\ home_name g <> n))
  /\ (forall t ts,
         preferred_teams (config s) = t :: ts -> TEAM_FULL !! t = None ->
         games s <> [] ->
         is_offday_for_preferred_team s = (Raise KeyError, s)).
Proof.
  assert (Hempty : games s = [] -> is_offday_for_preferred_team s = (Ret true, s)).
  { intros Hg. unfold is_offday_for_preferred_team. rewrite bind_gets.
    destruct (preferred_teams (config s)); [reflexivity|].
    by rewrite bind_gets, Hg. }
  split; [apply is_offday_for_preferred_team_none|].
  split; [exact Hempty|]. split; [|split].
  - unfold is_offday. rewrite bind_gets. intros [= Hlen%bool_decide_eq_true].
    apply Hempty. by apply nil_length_inv.
  - intros t ts n Hp Ht. eexists.
    split; [by apply (is_offday_for_preferred_team_resolved t ts n)|].
    rewrite negb_true_iff, <- not_true_iff_false, existsb_exists. split.
    + intros Hno g Hin. split; intros Hn; apply Hno; exists g;
        (split; [by apply list_elem_of_In|apply plays_true; auto]).
    + intros Hno (g & Hin%list_elem_of_In & Hg%plays_true).
      destruct (Hno g Hin) as [Ha Hh]. by destruct Hg.
  - intros t ts Hp Ht Hg. unfold is_offday_for_preferred_team.
    rewrite bind_gets, Hp, bind_gets.
    destruct (games s) as [|g gs]; [done|].
    by rewrite (bind_Raise _ _ _ _ _ (py_any_unknown t g gs s Ht)).
Qed.

(** *** Empty catalog and stale cursor *)

Lemma is_offday_for_preferred_team_empty s :
  games s = [] -> is_offday_for_preferred_team s = (Ret true, s).
Proof.
  intros Hg. unfold is_offday_for_preferred_team. rewrite bind_gets.
  destruct (preferred_teams (config s)); [reflexivity|].
  by rewrite bind_gets, Hg.
Qed.

(** X7: on an empty catalog [advance_to_next_game] raises [IndexError],
    whatever the configuration: it issues no request, puts the cursor on 0
    and changes nothing else. *)
Theorem advance_on_empty_catalog_raises s :
  games s = [] ->
  advance_to_next_game s = (Raise IndexError, set_current_game_index 0 s).
Proof.
  intros Hg.
  rewrite (advance_offday s (is_offday_for_preferred_team_empty s Hg)).
  rewrite rotate_run. cbv zeta.
  assert (Hnext : next_index (length (games s)) (current_game_index s) = 0).
  { rewrite Hg. reflexivity. }
  rewrite Hnext. apply getitem_None. by rewrite Hg.
Qed.

(** X8: when the cursor lies outside the catalog (always so on an empty
    catalog, and possible after a refresh shrank the catalog),
    [refresh_game_data] sets the network flag although it has issued no
    request; with [rotation_enabled] off it then returns; with it on and an
    empty catalog it raises [IndexError]; with it on, a non-empty catalog
    and the mid-inning interrupt off it returns with the cursor back on 0.
    In the three cases nothing but the flag and the cursor has changed. *)
Theorem refresh_game_data_cursor_outside_catalog s :
  length (games s) <= current_game_index s ->
  (rotation_enabled (config s) = false ->
   refresh_game_data s = (Ret tt, set_network_issues true s))
  /\ (rotation_enabled (config s) = true -> games s = [] ->
      refresh_game_data s
      = (Raise IndexError, set_current_game_index 0 (set_network_issues true s)))
  /\ (rotation_enabled (config s) = true -> games s <> [] ->
      rotation_preferred_team_live_mid_inning (config s) = false ->
      refresh_game_data s
      = (Ret tt, set_current_game_index 0 (set_network_issues true s))).
Proof.
  intros Hout.
  pose proof (refresh_game_data_no_game s (proj2 (lookup_ge_None _ _) Hout)) as Hrun.
  unfold move_on in Hrun. rewrite bind_gets in Hrun.
  cbn [config set_network_issues] in Hrun.
  assert (Hoff : rotation_enabled (config s) = false ->
                 refresh_game_data s = (Ret tt, set_network_issues true s)).
  { intros Hrot. by rewrite Hrun, Hrot. }
  assert (Hemp : rotation_enabled (config s) = true -> games s = [] ->
                 refresh_game_data s
                 = (Raise IndexError,
                    set_current_game_index 0 (set_network_issues true s))).
  { intros Hrot Hg. rewrite Hrun, Hrot.
    set (s1 := set_network_issues true s).
    erewrite bind_Raise; [reflexivity|].
    rewrite (advance_offday s1 (is_offday_for_preferred_team_empty s1 Hg)).
    rewrite rotate_run. cbv zeta. subst s1.
    cbn [games current_game_index set_network_issues]. by rewrite Hg. }
  assert (Hback : rotation_enabled (config s) = true -> games s <> [] ->
                  rotation_preferred_team_live_mid_inning (config s) = false ->
                  refresh_game_data s
                  = (Ret tt, set_current_game_index 0 (set_network_issues true s))).
  { intros Hrot Hg Hflag. rewrite Hrun, Hrot.
    set (s1 := set_network_issues true s).
    assert (Hnext : next_index (length (games s)) (current_game_index s) = 0).
    { unfold next_index. rewrite decide_True by lia. reflexivity. }
    destruct (games s) as [|g0 gs] eqn:Hgs; [done|].
    erewrite bind_Ret; [reflexivity|].
    rewrite (advance_plain s1 Hflag), rotate_run. cbv zeta.
    subst s1. cbn [games current_game_index set_network_issues].
    rewrite Hgs, Hnext. reflexivity. }
  by repeat split.
Qed.

(** *** Round robin *)

Lemma next_index_iter len i k :
  i < len -> Nat.iter k (next_index len) i = (i + k) mod len.
Proof.
  intros Hi. induction k as [|k IH].
  - simpl. rewrite Nat.add_0_r. by rewrite Nat.mod_small.
  - rewrite Nat.iter_succ, IH.
    rewrite next_index_mod by (apply Nat.mod_upper_bound; lia).
    rewrite Nat.Div0.add_mod_idemp_l. f_equal. lia.
Qed.

Lemma mod_full_turn len i : i < len -> (i + len) mod len = i.
Proof.
  intros Hi. replace (i + len) with (i + 1 * len) by lia.
  rewrite Nat.Div0.mod_add. by apply Nat.mod_small.
Qed.

Lemma advance_plain_after s :
  rotation_preferred_team_live_mid_inning (config s) = false ->
  after advance_to_next_game s
  = set_current_game_index (next_index (length (games s)) (current_game_index s)) s.
Proof.
  intros Hflag. unfold after. rewrite (advance_plain s Hflag), rotate_run. cbv zeta.
  unfold getitem. by destruct (games s !! _).
Qed.

Lemma advance_plain_iter s k :
  rotation_preferred_team_live_mid_inning (config s) = false ->
  let sk := Nat.iter k (after advance_to_next_game) s in
  config sk = config s /\ games sk = games s
  /\ current_game_index sk
     = Nat.iter k (next_index (length (games s))) (current_game_index s).
Proof.
  intros Hflag. cbv zeta. induction k as [|k (Hc & Hg & Hi)]; [done|].
  rewrite !Nat.iter_succ. rewrite advance_plain_after by (by rewrite Hc).
  cbn [config games current_game_index set_current_game_index].
  rewrite Hc, Hg, Hi. done.
Qed.

(** X9: with the mid-inning interrupt off and the cursor [i] inside a
    catalog of [N] games, [k] successive calls of [advance_to_next_game]
    leave the catalog alone and the cursor on [(i + k) mod N]; the next call
    returns the game at [(i + k + 1) mod N]; after [N] calls the cursor is
    back on [i]. *)
Theorem plain_rotation_cycles s k :
  rotation_preferred_team_live_mid_inning (config s) = false ->
  current_game_index s < length (games s) ->
  let N := length (games s) in
  let i := current_game_index s in
  let sk := Nat.iter k (after advance_to_next_game) s in
  games sk = games s
  /\ current_game_index sk = (i + k) mod N
  /\ (exists g, advance_to_next_game sk = (Ret g, after advance_to_next_game sk)
                /\ games s !! ((i + k + 1) mod N) = Some g)
  /\ current_game_index (Nat.iter N (after advance_to_next_game) s) = i.
Proof.
  intros Hflag Hi N i sk.
  destruct (advance_plain_iter s k Hflag) as (Hc & Hg & Hk).
  fold sk in Hc, Hg, Hk. rewrite next_index_iter in Hk by done.
  split; [done|]. split; [done|]. split.
  - assert (Hlt : (i + k + 1) mod N < length (games s))
      by (apply Nat.mod_upper_bound; lia).
    destruct (lookup_lt_is_Some_2 _ _ Hlt) as [g Hlook].
    exists g. split; [|done].
    assert (Hnext : next_index (length (games sk)) (current_game_index sk)
                    = (i + k + 1) mod N).
    { rewrite Hg, Hk. rewrite next_index_mod by (apply Nat.mod_upper_bound; lia).
      by rewrite Nat.Div0.add_mod_idemp_l. }
    rewrite advance_plain_after by (by rewrite Hc).
    rewrite advance_plain by (by rewrite Hc). rewrite rotate_run. cbv zeta.
    rewrite Hnext, Hg. by apply getitem_Some.
  - destruct (advance_plain_iter s N Hflag) as (_ & _ & HN).
    rewrite HN, next_index_iter by done. by apply mod_full_turn.
Qed.

Lemma advance_to_next_standings_after s :
  after advance_to_next_standings s
  = set_current_division_index
      (next_index (length (preferred_divisions (config s))) (current_division_index s)) s.
Proof.
  unfold after, advance_to_next_standings.
  rewrite (bind_Ret _ _ _ _ _ (next_division_index_run s)), bind_modify.
  symmetry. apply current_standings_readonly.
Qed.

Lemma advance_to_next_standings_iter s k :
  let sk := Nat.iter k (after advance_to_next_standings) s in
  config sk = config s
  /\ current_division_index sk
     = Nat.iter k (next_index (length (preferred_divisions (config s))))
                (current_division_index s).
Proof.
  cbv zeta. induction k as [|k (Hc & Hi)]; [done|].
  rewrite !Nat.iter_succ. rewrite advance_to_next_standings_after.
  cbn [config current_division_index set_current_division_index].
  rewrite Hc, Hi. done.
Qed.

(** X10: with the division cursor [j] inside the [M] preferred divisions,
    [k] successive calls of [advance_to_next_standings] leave the cursor on
    [(j + k) mod M], whether the lookups they end with return or raise, and
    [M] calls bring it back to [j]; from a cursor outside the list the first
    call puts it on 0. *)
Theorem standings_rotation_cycles s k :
  let M := length (preferred_divisions (config s)) in
  let j := current_division_index s in
  (j < M ->
   current_division_index (Nat.iter k (after advance_to_next_standings) s) = (j + k) mod M
   /\ current_division_index (Nat.iter M (after advance_to_next_standings) s) = j)
  /\ (M <= j -> current_division_index (after advance_to_next_standings s) = 0).
Proof.
  intros M j. split.
  - intros Hj. split.
    + destruct (advance_to_next_standings_iter s k) as [_ ->].
      by apply next_index_iter.
    + destruct (advance_to_next_standings_iter s M) as [_ ->].
      rewrite next_index_iter by done. by apply mod_full_turn.
  - intros Hj. rewrite advance_to_next_standings_after.
    cbn [current_division_index set_current_division_index].
    unfold next_index. fold M j. by rewrite decide_True by lia.
Qed.

(** *** A successful detail refresh *)

(** X11: when the cursor is on a game and its detail is fetched,
    [refresh_game_data] returns with the fetched record cached, the
    selection marked fresh, the flag cleared, one request counted and the
    cursor where it was; the layout state is the perfect-game one if the
    record flags a perfect game, else the no-hitter one if it flags a
    no-hitter, else the warm-up one if the detailed state is the warm-up
    status, else the default one. *)
Theorem refresh_game_data_success s g d :
  games s !! current_game_index s = Some g ->
  get_game api (upstream_calls s) (game_id g) = Some d ->
  exists s',
    refresh_game_data s = (Ret tt, s')
    /\ game_data s' = Val d
    /\ needs_refresh s' = false
    /\ network_issues s' = false
    /\ upstream_calls s' = S (upstream_calls s)
    /\ current_game_index s' = current_game_index s
    /\ (perfectGame d = true -> layout_state s' = LAYOUT_STATE_PERFECT)
    /\ (perfectGame d = false -> noHitter d = true ->
        layout_state s' = LAYOUT_STATE_NOHIT)
    /\ (perfectGame d = false -> noHitter d = false -> detailedState d = WARMUP ->
        layout_state s' = LAYOUT_STATE_WARMUP)
    /\ (perfectGame d = false -> noHitter d = false -> detailedState d <> WARMUP ->
        layout_state s' = LAYOUT_STATE_DEFAULT).
Proof.
  intros Hg Hget. eexists. split; [by apply (refresh_game_data_ok s g d)|].
  cbn [game_data needs_refresh network_issues upstream_calls current_game_index
       layout_state set_network_issues set_needs_refresh set_layout_state
       set_game_data tick].
  do 5 (split; [reflexivity|]). unfold layout_of.
  split; [by intros ->|]. split; [by intros -> ->|]. split.
  - intros -> -> ->. by rewrite String.eqb_refl.
  - intros -> -> Hne. by apply String.eqb_neq in Hne as ->.
Qed.

(** *** What the preferred-team fetch changes *)

Lemma fetch_keeps_cache : keeps (same_on game_data) fetch_preferred_team_game_data.
Proof. unfold fetch_preferred_team_game_data, statsapi_get. repeat keeps_step. Qed.

Lemma fetch_keeps_cursor :
  keeps (same_on current_game_index) fetch_preferred_team_game_data.
Proof. unfold fetch_preferred_team_game_data, statsapi_get. repeat keeps_step. Qed.

Lemma fetch_keeps_refresh_mark :
  keeps (same_on needs_refresh) fetch_preferred_team_game_data.
Proof. unfold fetch_preferred_team_game_data, statsapi_get. repeat keeps_step. Qed.

Lemma fetch_keeps_layout : keeps (same_on layout_state) fetch_preferred_team_game_data.
Proof. unfold fetch_preferred_team_game_data, statsapi_get. repeat keeps_step. Qed.

(** X12: [fetch_preferred_team_game_data] never stores the record it
    fetched, moves the cursor, or touches the refresh mark or the layout; it
    issues at most one request, and when it issues none the network flag is
    as before. *)
Theorem fetch_changes_flag_only s :
  let s' := after fetch_preferred_team_game_data s in
  game_data s' = game_data s
  /\ current_game_index s' = current_game_index s
  /\ needs_refresh s' = needs_refresh s
  /\ layout_state s' = layout_state s
  /\ (upstream_calls s' = upstream_calls s /\ network_issues s' = network_issues s
      \/ upstream_calls s' = S (upstream_calls s)).
Proof.
  intros s'. subst s'.
  split; [apply fetch_keeps_cache|]. split; [apply fetch_keeps_cursor|].
  split; [apply fetch_keeps_refresh_mark|]. split; [apply fetch_keeps_layout|].
  unfold after, fetch_preferred_team_game_data, bind.
  pose proof (is_offday_for_preferred_team_readonly s) as Hoff.
  destruct (is_offday_for_preferred_team s) as [[off|e] s1]; simpl in Hoff; subst s1;
    [|by left].
  destruct off; simpl; [by left|].
  pose proof (game_index_for_preferred_team_readonly s) as Hidx.
  destruct (game_index_for_preferred_team s) as [[i|e] s1]; simpl in Hidx; subst s1;
    [|by left].
  unfold gets, getitem. destruct (games s !! i) as [g|]; simpl; [|by left].
  right. unfold try_except_else, statsapi_get, upstream.
  destruct (get_game api (upstream_calls s) (game_id g)); simpl; [done|].
  unfold getattr_game_data. cbn [game_data tick]. by destruct (game_data s).
Qed.

(** *** The interrupt holds the cursor *)

(** X13: while the preferred team's game is fetched live and not in an
    inning break, two successive calls of [advance_to_next_game] both return
    that game: the second call finds the cursor already on it, fetches its
    detail again and leaves the cursor there, with the newer record cached. *)
Theorem interrupt_holds_cursor t ts n s g d1 d2 st1 st2 :
  rotation_preferred_team_live_mid_inning (config s) = true ->
  preferred_teams (config s) = t :: ts ->
  TEAM_FULL !! t = Some n ->
  games s !! team_index n (games s) (current_game_index s) = Some g ->
  plays n g = true ->
  get_game api (upstream_calls s) (game_id g) = Some d1 ->
  is_live (detailedState d1) = true ->
  inningState d1 = Some st1 -> is_inning_break st1 = false ->
  get_game api (S (upstream_calls s)) (game_id g) = Some d2 ->
  is_live (detailedState d2) = true ->
  inningState d2 = Some st2 -> is_inning_break st2 = false ->
  exists s1 s2,
    advance_to_next_game s = (Ret g, s1)
    /\ advance_to_next_game s1 = (Ret g, s2)
    /\ current_game_index s2 = current_game_index s1
    /\ game_data s1 = Val d1 /\ game_data s2 = Val d2
    /\ upstream_calls s2 = S (S (upstream_calls s)).
Proof.
  intros Hflag Hteams Hfull Hgame Hg Hget1 Hl1 Hs1 Hb1 Hget2 Hl2 Hs2 Hb2.
  assert (Hplays : existsb (plays n) (games s) = true).
  { apply existsb_plays. eauto. }
  set (i := team_index n (games s) (current_game_index s)) in *.
  set (s1 := interrupted is_live WARMUP n s false d1).
  assert (Hi : team_index n (games s) i = i).
  { unfold i at 2. by apply team_index_cursor. }
  exists s1, (interrupted is_live WARMUP n s1 false d2).
  split; [by apply (advance_live_mid_inning t ts n s g Hflag Hteams Hfull Hplays Hgame d1 st1)|].
  split.
  - apply (advance_live_mid_inning t ts n s1 g Hflag Hteams Hfull Hplays) with (st := st2);
      try done.
    subst s1. cbn [games current_game_index interrupted set_layout_state
                   set_needs_refresh set_game_data set_current_game_index
                   set_network_issues tick].
    fold i. by rewrite Hi.
  - subst s1. cbn [games current_game_index game_data upstream_calls interrupted
                   set_layout_state set_needs_refresh set_game_data
                   set_current_game_index set_network_issues tick].
    fold i. by rewrite Hi.
Qed.

(** *** Standings lookups *)

(** X14: a successful standings refresh replaces the table wholesale: it
    returns with the fetched table installed and one request counted, and
    the current division is then looked up in the fetched table alone, found
    as the first division bearing the configured name and missing with
    [StopIteration] otherwise. *)
Theorem refreshed_standings_are_looked_up s st dn :
  get_standings api (upstream_calls s) (today s) = Some st ->
  preferred_divisions (config s) !! current_division_index s = Some dn ->
  exists s',
    refresh_standings s = (Ret tt, s')
    /\ standings s' = Val st
    /\ upstream_calls s' = S (upstream_calls s)
    /\ (forall d,
          List.find (fun d => String.eqb (name d) dn) (divisions st) = Some d ->
          current_standings s' = (Ret d, s'))
    /\ (List.find (fun d => String.eqb (name d) dn) (divisions st) = None ->
        current_standings s' = (Raise StopIteration, s')).
Proof.
  intros Hget Hdn. eexists. split; [by apply refresh_standings_ok|].
  split; [reflexivity|]. split; [reflexivity|]. split.
  - intros d Hd. by eapply current_standings_found.
  - intros Hd. by eapply current_standings_absent.
Qed.

(** X15: [standings_for_preferred_division] is [current_standings] with
    the cursor on 0; with no preferred division configured both raise
    [IndexError], and as long as no standings fetch has succeeded both raise
    [AttributeError] for a division cursor inside the list. *)
Theorem standings_for_preferred_division_outcomes s :
  (current_division_index s = 0 ->
   standings_for_preferred_division s = current_standings s)
  /\ (preferred_divisions (config s) = [] ->
      standings_for_preferred_division s = (Raise IndexError, s)
      /\ current_standings s = (Raise IndexError, s))
  /\ (standings s = Unset ->
      (preferred_divisions (config s) <> [] ->
       standings_for_preferred_division s = (Raise AttributeError, s))
      /\ (current_division_index s < length (preferred_divisions (config s)) ->
          current_standings s = (Raise AttributeError, s))).
Proof.
  split; [|split].
  - intros Hj. unfold standings_for_preferred_division, current_standings.
    by rewrite !bind_gets, Hj.
  - intros Hnil. unfold standings_for_preferred_division, current_standings.
    rewrite !bind_gets, Hnil. done.
  - intros Hst. split.
    + intros Hne. unfold standings_for_preferred_division. rewrite bind_gets.
      destruct (preferred_divisions (config s)) as [|dn l]; [done|].
      rewrite (bind_Ret _ _ _ _ _ (getitem_Some (dn :: l) 0 dn s eq_refl)).
      unfold standings_for. by rewrite bind_gets, Hst.
    + intros Hlt. destruct (lookup_lt_is_Some_2 _ _ Hlt) as [dn Hdn].
      unfold current_standings. rewrite !bind_gets.
      rewrite (bind_Ret _ _ _ _ _ (getitem_Some _ _ _ s Hdn)).
      unfold standings_for. by rewrite bind_gets, Hst.
Qed.

(** *** Live games *)

Lemma games_live_run s :
  games_live s
  = (Ret (existsb (fun g => is_fresh (status g)
                            || (is_live (status g) || String.eqb (status g) WARMUP))
                  (games s)), s).
Proof.
  unfold games_live. rewrite bind_gets.
  induction (games s) as [|g gs IH]; [reflexivity|].
  simpl. rewrite bind_ret. destruct (is_fresh (status g) || _); [reflexivity|exact IH].
Qed.

(** X16: [games_live] never raises; it returns [True] exactly when some
    game of the catalog is fresh, live or warming up, hence [False] on an
    empty catalog; and when it returns [False] no game is live, so the index
    of a preferred team that plays is the position of its first game. *)
Theorem games_live_outcomes s :
  exists b,
    games_live s = (Ret b, s)
    /\ (b = true <->
        exists g, g ∈ games s
                  /\ (is_fresh (status g) = true \/ is_live (status g) = true
                      \/ status g = WARMUP))
    /\ (games s = [] -> b = false)
    /\ (b = false ->
        forall t ts n i g,
          preferred_teams (config s) = t :: ts -> TEAM_FULL !! t = Some n ->
          games s !! i = Some g -> (away_name g = n \/ home_name g = n) ->
          (forall j y, j < i -> games s !! j = Some y ->
                       away_name y <> n /\ home_name y <> n) ->
          game_index_for_preferred_team s = (Ret i, s)).
Proof.
  eexists. split; [apply games_live_run|].
  set (live := fun g => is_fresh (status g)
                        || (is_live (status g) || String.eqb (status g) WARMUP)).
  assert (Hiff : forall g, live g = true <->
                   is_fresh (status g) = true \/ is_live (status g) = true
                   \/ status g = WARMUP).
  { intros g. unfold live. rewrite !orb_true_iff, String.eqb_eq. done. }
  split; [|split].
  - rewrite existsb_exists. split.
    + intros (g & Hin & Hg). exists g. split; [by apply list_elem_of_In|by apply Hiff].
    + intros (g & Hin & Hg). exists g. split; [by apply list_elem_of_In|by apply Hiff].
  - by intros ->.
  - intros Hnone t ts n i g Hp Ht Hi Hg Hfirst.
    rewrite (game_index_for_preferred_team_resolved t ts n s Hp Ht). do 2 f_equal.
    assert (Hnolive : forall j y, games s !! j = Some y -> ~ plays_live n y).
    { intros j y Hj [_ Hl].
      apply not_true_iff_false in Hnone. apply Hnone, existsb_exists.
      exists y. split; [by eapply list_elem_of_In, list_elem_of_lookup_2|].
      apply Hiff. auto. }
    destruct (team_index_first n (games s) (current_game_index s) i g Hnolive Hi)
      as (g' & Hg' & Hp' & Hmin); [by apply plays_true|].
    pose proof (Hmin i g Hi (proj2 (plays_true n g) Hg)) as Hle.
    destruct (decide (team_index n (games s) (current_game_index s) = i)) as [|Hne];
      [done|].
    exfalso.
    assert (Hlt : team_index n (games s) (current_game_index s) < i) by lia.
    destruct (Hfirst _ g' Hlt Hg') as [Ha Hh].
    apply plays_true in Hp'. by destruct Hp'.
Qed.

(** *** Construction *)

Lemma resolved_teams ts :
  Forall (fun t => is_Some (TEAM_FULL !! t)) ts ->
  exists teams, Forall2 (fun t n => TEAM_FULL !! t = Some n) ts teams.
Proof.
  induction 1 as [|t ts [n Hn] _ [teams IH]]; [by exists []|].
  exists (n :: teams). by constructor.
Qed.

Lemma refresh_games_returns s :
  Forall (fun t => is_Some (TEAM_FULL !! t)) (preferred_teams (config s)) ->
  exists gs b, refresh_games s = (Ret tt, set_games gs (set_network_issues b (tick s))).
Proof.
  intros Hres. unfold refresh_games.
  destruct (schedule api (upstream_calls s) (date s)) as [all_games|] eqn:Hs.
  - destruct (rotation_only_preferred (config s)) eqn:Hflag.
    + destruct (resolved_teams _ Hres) as [teams Hteams].
      exists (filter (involves teams) all_games), false.
      erewrite bind_Ret; [reflexivity|].
      rewrite (get_games_filtered s all_games Hs Hflag). unfold filter_list_of_games.
      by erewrite bind_Ret by (apply py_map_getkey, Hteams).
    + exists all_games, false.
      by rewrite (bind_Ret _ _ _ _ _ (get_games_all s all_games Hs Hflag)).
  - exists [], true. by rewrite (bind_Ret _ _ _ _ _ (get_games_failed s Hs)).
Qed.

Lemma refresh_games_inv s u s' :
  refresh_games s = (Ret u, s') ->
  exists gs b,
    s' = set_games gs (set_network_issues b (tick s))
    /\ (schedule api (upstream_calls s) (date s) = None -> gs = []).
Proof.
  unfold refresh_games.
  destruct (schedule api (upstream_calls s) (date s)) as [all_games|] eqn:Hs.
  - destruct (rotation_only_preferred (config s)) eqn:Hflag.
    + intros H. bind_inv H. injection H as _ <-.
      rewrite (get_games_filtered s all_games Hs Hflag) in Hstep.
      unfold filter_list_of_games in Hstep. bind_inv Hstep. injection Hstep as <- <-.
      pose proof (keeps_py_map eq (getkey TEAM_FULL) (preferred_teams (config s))
                    (keeps_getkey eq TEAM_FULL) (set_network_issues false (tick s)))
        as Hsame.
      match goal with
      | H : py_map _ _ _ = (Ret _, ?sx) |- _ =>
          rewrite H in Hsame; simpl in Hsame; subst sx
      end.
      eexists _, false. split; [reflexivity|done].
    + rewrite (bind_Ret _ _ _ _ _ (get_games_all s all_games Hs Hflag)).
      intros [= _ <-]. eexists _, false. split; [reflexivity|done].
  - rewrite (bind_Ret _ _ _ _ _ (get_games_failed s Hs)).
    intros [= _ <-]. exists [], true. split; [reflexivity|done].
Qed.

Lemma team_index_lt n gs cur : cur < length gs -> team_index n gs cur < length gs.
Proof.
  intros Hcur. unfold team_index.
  destruct (list_find (plays_live n) gs) as [[k x]|] eqn:Hf.
  { apply list_find_Some in Hf as (Hk & _). by eapply lookup_lt_Some. }
  destruct (list_find (fun g => plays n g = true) gs) as [[k x]|] eqn:Hf2; [|done].
  apply list_find_Some in Hf2 as (Hk & _). by eapply lookup_lt_Some.
Qed.

Lemma game_index_for_preferred_team_inv s i s' :
  game_index_for_preferred_team s = (Ret i, s') ->
  s' = s
  /\ (current_game_index s < length (games s) -> i < length (games s))
  /\ (games s = [] -> i = current_game_index s).
Proof.
  intros Hrun.
  pose proof (game_index_for_preferred_team_readonly s) as Hsame.
  rewrite Hrun in Hsame. simpl in Hsame. subst s'. split; [done|].
  unfold game_index_for_preferred_team in Hrun. rewrite bind_gets in Hrun.
  destruct (preferred_teams (config s)) as [|t ts].
  { injection Hrun as <-. done. }
  destruct (TEAM_FULL !! t) as [n|] eqn:Ht.
  - rewrite (game_index_for_resolved t n s Ht) in Hrun. injection Hrun as <-.
    split; [apply team_index_lt|]. by intros ->.
  - by rewrite (game_index_for_unknown t s Ht) in Hrun.
Qed.

Lemma refresh_standings_inv s :
  exists s', refresh_standings s = (Ret tt, s')
             /\ (s' = tick s \/ exists st, s' = set_standings (Val st) (tick s))
             /\ (get_standings api (upstream_calls s) (today s) = None -> s' = tick s).
Proof.
  destruct (get_standings api (upstream_calls s) (today s)) as [st|] eqn:Hs.
  - eexists. split; [by apply refresh_standings_ok|]. split; [eauto|done].
  - eexists. split; [by apply refresh_standings_failed|]. split; [eauto|done].
Qed.

(** X17: when the constructor returns, the object has the given
    configuration and the resolved sports day, two requests were issued, no
    detail is cached, the selection is marked for refresh, the division
    cursor is 0, and the game cursor is inside the catalog (or 0 on an empty
    one); the network flag is cleared whatever the two requests did: a
    failed list-games request shows as an empty catalog and a failed
    standings request as standings never assigned. *)
Theorem init_postconditions cfg t_today t_now s :
  init cfg t_today t_now = (Ret tt, Some s) ->
  config s = cfg
  /\ parse_today cfg t_today t_now = Ret (today s)
  /\ network_issues s = false
  /\ game_data s = Unset
  /\ needs_refresh s = true
  /\ current_division_index s = 0
  /\ upstream_calls s = 2
  /\ (current_game_index s < length (games s)
      \/ games s = [] /\ current_game_index s = 0)
  /\ (schedule api 0 (dt_ordinal (today s)) = None -> games s = [])
  /\ (get_standings api 1 (today s) = None -> standings s = Unset).
Proof.
  unfold init. destruct (parse_today cfg t_today t_now) as [d|e]; [|discriminate].
  match goal with
  | |- context [bind refresh_games ?k ?s0] =>
      destruct (bind refresh_games k s0) as [r s1] eqn:Hrun
  end.
  intros [= -> <-].
  bind_inv Hrun. apply refresh_games_inv in Hstep as (gs & b & -> & Hsched).
  bind_inv Hrun.
  apply game_index_for_preferred_team_inv in Hstep as (-> & Hrange & Hnil).
  bind_inv Hrun. injection Hstep as _ <-. bind_inv Hrun.
  injection Hrun as <-.
  match type of Hstep with
  | refresh_standings ?s2 = _ =>
      destruct (refresh_standings_inv s2) as (s3 & Hst & Hcases & Hfail)
  end.
  rewrite Hst in Hstep. injection Hstep as _ <-.
  cbn [games current_game_index set_games set_network_issues tick length
       upstream_calls today set_current_game_index] in Hrange, Hnil, Hfail, Hsched.
  assert (Hcursor : a0 < length gs \/ gs = [] /\ a0 = 0).
  { destruct gs as [|g gs']; [right; split; [done|by apply Hnil]|].
    left. apply Hrange. simpl. lia. }
  unfold date in Hsched. cbn [today set_games set_network_issues tick] in Hsched.
  destruct Hcases as [->|[st ->]]; simpl; split_and!; try done.
  intros Hnone. apply Hfail, (f_equal standings) in Hnone. by simpl in Hnone.
Qed.

(** X18: when the date strings parse and every preferred team is in
    [TEAM_FULL], the constructor returns an object for every behaviour of
    the upstream provider. *)
Theorem init_survives_any_upstream cfg t_today t_now d :
  parse_today cfg t_today t_now = Ret d ->
  Forall (fun t => is_Some (TEAM_FULL !! t)) (preferred_teams cfg) ->
  exists s, init cfg t_today t_now = (Ret tt, Some s).
Proof.
  intros Hparse Hres. unfold init. rewrite Hparse.
  match goal with
  | |- context [bind refresh_games ?k ?s0] => set (s0' := s0)
  end.
  destruct (refresh_games_returns s0' Hres) as (gs & b & Hgames).
  rewrite (bind_Ret _ _ _ _ _ Hgames).
  set (s1 := set_games gs (set_network_issues b (tick s0'))).
  assert (Hidx : exists i, game_index_for_preferred_team s1 = (Ret i, s1)).
  { destruct (preferred_teams cfg) as [|t ts] eqn:Hp.
    - eexists. by apply game_index_for_preferred_team_none.
    - apply Forall_cons in Hres as [[n Hn] _]. eexists.
      by apply (game_index_for_preferred_team_resolved t ts n). }
  destruct Hidx as [i Hidx]. rewrite (bind_Ret _ _ _ _ _ Hidx), bind_modify.
  destruct (refresh_standings_inv (set_current_game_index i s1)) as (s3 & Hst & _).
  rewrite (bind_Ret _ _ _ _ _ Hst). eauto.
Qed.

(** *** A total outage *)

Lemma refresh_game_data_failed_plain s g :
  games s !! current_game_index s = Some g ->
  get_game api (upstream_calls s) (game_id g) = None ->
  rotation_enabled (config s) = true ->
  rotation_preferred_team_live_mid_inning (config s) = false ->
  refresh_game_data s
  = (Ret tt, set_current_game_index
               (next_index (length (games s)) (current_game_index s))
               (set_network_issues true (tick s))).
Proof.
  intros Hg Hget Hrot Hflag.
  rewrite (refresh_game_data_failed s g Hg Hget). unfold move_on.
  rewrite bind_gets. cbn [config set_network_issues tick]. rewrite Hrot.
  set (s1 := set_network_issues true (tick s)).
  pose proof (lookup_lt_Some _ _ _ Hg) as Hlt.
  assert (Hlen : 0 < length (games s)) by lia.
  destruct (lookup_lt_is_Some_2 (games s) _ (next_index_lt _ (current_game_index s) Hlen))
    as [g' Hg'].
  erewrite bind_Ret; [reflexivity|].
  rewrite (advance_plain s1 Hflag), rotate_run. cbv zeta. by apply getitem_Some.
Qed.

(** X19: while every detail request fails, with [rotation_enabled] on, the
    mid-inning interrupt off and the cursor [i] inside a catalog of [N]
    games, each call of [refresh_game_data] returns normally and moves on:
    after [k] calls the catalog is unchanged, [k] requests were issued and
    the cursor is on [(i + k) mod N], and after the first call the flag is
    set. *)
Theorem outage_keeps_rotating s k :
  (forall r gid, get_game api r gid = None) ->
  rotation_enabled (config s) = true ->
  rotation_preferred_team_live_mid_inning (config s) = false ->
  current_game_index s < length (games s) ->
  let sk := Nat.iter k (after refresh_game_data) s in
  games sk = games s
  /\ current_game_index sk = (current_game_index s + k) mod length (games s)
  /\ upstream_calls sk = upstream_calls s + k
  /\ (0 < k -> network_issues sk = true)
  /\ refresh_game_data sk = (Ret tt, after refresh_game_data sk).
Proof.
  intros Hdown Hrot Hflag Hin. cbv zeta.
  assert (Hinv : forall j,
             let sj := Nat.iter j (after refresh_game_data) s in
             config sj = config s /\ games sj = games s
             /\ current_game_index sj
                = (current_game_index s + j) mod length (games s)
             /\ upstream_calls sj = upstream_calls s + j
             /\ (0 < j -> network_issues sj = true)).
  { induction j as [|j (Hc & Hg & Hi & Hn & _)]; cbv zeta.
    - rewrite Nat.add_0_r, Nat.mod_small by done. simpl. split_and!; try done. lia.
    - rewrite Nat.iter_succ. set (sj := Nat.iter j (after refresh_game_data) s) in *.
      assert (Hlt : current_game_index sj < length (games sj)).
      { rewrite Hi, Hg. apply Nat.mod_upper_bound. lia. }
      destruct (lookup_lt_is_Some_2 _ _ Hlt) as [g Hlook].
      unfold after at 1 2 3 4 5.
      rewrite (refresh_game_data_failed_plain sj g Hlook (Hdown _ _))
        by (by rewrite Hc).
      cbn [config games current_game_index upstream_calls network_issues snd
           set_current_game_index set_network_issues tick].
      split; [done|]. split; [done|]. split.
      + rewrite Hg, Hi. rewrite next_index_mod by (apply Nat.mod_upper_bound; lia).
        rewrite Nat.Div0.add_mod_idemp_l. f_equal. lia.
      + split; [lia|done]. }
  destruct (Hinv k) as (Hc & Hg & Hi & Hn & Hf).
  split_and!; try done.
  set (sk := Nat.iter k (after refresh_game_data) s) in *.
  assert (Hlt : current_game_index sk < length (games sk)).
  { rewrite Hi, Hg. apply Nat.mod_upper_bound. lia. }
  destruct (lookup_lt_is_Some_2 _ _ Hlt) as [g Hlook].
  unfold after. by rewrite (refresh_game_data_failed_plain sk g Hlook (Hdown _ _))
    by (by rewrite Hc).
Qed.

(** *** The sports day and the two clock reads *)

(** X20: with no demo date and a cutoff that parses, [__parse_today]
    returns the first clock read ([datetime.today()]) either as it is or
    moved back by exactly one day, time of day kept; when the second read
    ([datetime.now()]) already falls on a later date than the first, it is
    returned as it is, whatever the cutoff. *)
Theorem sports_day_within_one_day cfg t_today t_now c :
  demo_configured cfg = false ->
  strptime_hm (end_of_day cfg) = Some c ->
  exists d,
    parse_today cfg t_today t_now = Ret d
    /\ dt_micros d = dt_micros t_today
    /\ (dt_ordinal d = dt_ordinal t_today \/ dt_ordinal d = (dt_ordinal t_today - 1)%Z)
    /\ ((dt_ordinal t_today < dt_ordinal t_now)%Z -> d = t_today).
Proof.
  intros Hdemo Hc. unfold parse_today. rewrite Hdemo, Hc.
  destruct (datetime_gt _ t_now) eqn:Hgt.
  - eexists. split; [reflexivity|]. split; [reflexivity|]. split; [by right|].
    intros Hlater. exfalso. unfold datetime_gt in Hgt. cbn [dt_ordinal dt_micros] in Hgt.
    apply orb_true_iff in Hgt as [Hgt|Hgt].
    + apply Z.ltb_lt in Hgt. lia.
    + apply andb_true_iff in Hgt as [Hgt _]. apply Z.eqb_eq in Hgt. lia.
  - eexists. split; [reflexivity|]. split; [reflexivity|]. split; [by left|done].
Qed.

(** *** The interrupt on a failed fetch *)

(** X21: with the mid-inning interrupt on, the preferred team's game [g]
    in the catalog and a detail record cached, an advance whose fetch fails
    returns [g] with the cursor on it, the flag set and the selection marked
    fresh, while the cached record stays the one cached before, whichever
    game it was fetched for. *)
Theorem interrupt_on_failed_fetch_keeps_stale_detail t ts n s g cached :
  rotation_preferred_team_live_mid_inning (config s) = true ->
  preferred_teams (config s) = t :: ts ->
  TEAM_FULL !! t = Some n ->
  games s !! team_index n (games s) (current_game_index s) = Some g ->
  plays n g = true ->
  get_game api (upstream_calls s) (game_id g) = None ->
  game_data s = Val cached ->
  exists s',
    advance_to_next_game s = (Ret g, s')
    /\ games s' !! current_game_index s' = Some g
    /\ game_data s' = Val cached
    /\ needs_refresh s' = false
    /\ network_issues s' = true
    /\ upstream_calls s' = S (upstream_calls s).
Proof.
  intros Hflag Hteams Hfull Hgame Hg Hget Hd.
  assert (Hplays : existsb (plays n) (games s) = true).
  { apply existsb_plays. eauto. }
  eexists.
  split; [by apply (advance_fetch_failed t ts n s g Hflag Hteams Hfull Hplays Hgame cached)|].
  cbn [games current_game_index game_data needs_refresh network_issues upstream_calls
       interrupted set_layout_state set_needs_refresh set_game_data
       set_current_game_index set_network_issues tick].
  by split_and!.
Qed.

End Properties.

(** ** The statements on the sample deployment *)

Section Examples.

Import Demo.

Local Abbreviation advance :=
  (advance_to_next_game TEAM_FULL is_live is_inning_break WARMUP).
Local Abbreviation refresh :=
  (refresh_game_data TEAM_FULL is_live is_inning_break WARMUP).
Local Abbreviation fetch := (fetch_preferred_team_game_data TEAM_FULL is_live).
Local Abbreviation index_for_preferred := (game_index_for_preferred_team TEAM_FULL is_live).
Local Abbreviation resolve := (parse_today strptime_ymd strptime_hm).

(** [fresh] and [offline] are what the constructor builds. *)
Example init_fresh :
  init TEAM_FULL is_live strptime_ymd strptime_hm (api always) cfg afternoon afternoon
  = (Ret tt, Some fresh).
Proof. vm_compute. reflexivity. Qed.

Example init_offline :
  init TEAM_FULL is_live strptime_ymd strptime_hm (api never) cfg afternoon afternoon
  = (Ret tt, Some offline).
Proof. vm_compute. reflexivity. Qed.

(** C1: on the freshly built object, with the mid-inning interrupt on and
    the preferred team's game in the catalog, an advance whose fetch fails
    raises [AttributeError] out of the fallback to the cached detail, which
    was never assigned: the cursor is not moved and no game is returned. *)
Theorem advance_without_cached_detail_raises :
  rotation_preferred_team_live_mid_inning (config fresh) = true
  /\ is_offday_for_preferred_team TEAM_FULL fresh = (Ret false, fresh)
  /\ get_game (api (outage_from 2)) (upstream_calls fresh) 103 = None
  /\ advance (api (outage_from 2)) fresh = (Raise AttributeError, tick fresh).
Proof. vm_compute. repeat split; reflexivity. Qed.

(** C10: on the freshly built object, with the preferred team's game in
    the catalog, a fetch that fails raises [AttributeError] out of its
    [except] handler, which reads the cached detail before it sets the flag
    and finds none: nothing is returned and the flag is left cleared. *)
Theorem fetch_without_cached_detail_raises :
  is_offday_for_preferred_team TEAM_FULL fresh = (Ret false, fresh)
  /\ game_data fresh = Unset
  /\ get_game (api (outage_from 2)) (upstream_calls fresh) 103 = None
  /\ fetch (api (outage_from 2)) fresh = (Raise AttributeError, tick fresh)
  /\ network_issues (after (fetch (api (outage_from 2))) fresh) = false.
Proof. vm_compute. repeat split; reflexivity. Qed.

(** C8: a standings refresh does not write the flag: on the freshly built
    object a failed standings request leaves it cleared, and on an object
    whose flag is set a successful one leaves it set. *)
Theorem refresh_standings_leaves_flag :
  get_standings (api never) (upstream_calls fresh) (today fresh) = None
  /\ network_issues fresh = false
  /\ network_issues (refresh_standings (api never) fresh).2 = false
  /\ get_standings (api always) (upstream_calls fresh) (today fresh) = Some table
  /\ network_issues (refresh_standings (api always) (set_network_issues true fresh)).2 = true.
Proof. vm_compute. repeat split; reflexivity. Qed.

(** C3 on the sample clock: read at 01:30 and again a microsecond later,
    the 03:00 cutoff still lies ahead and the day is the previous one; read
    at 14:00 the day is the clock's; a demo date overrides the clock. *)
Lemma parse_today_resolves_witness :
  (demo_configured cfg = false
   /\ strptime_hm (end_of_day cfg) = Some 10800000000%Z
   /\ (exists d, resolve cfg night {| dt_ordinal := 737886; dt_micros := 5400000001 |}
                 = Ret d /\ dt_ordinal d = 737885%Z)
   /\ (exists d, resolve cfg afternoon afternoon = Ret d /\ dt_ordinal d = 737886%Z))
  /\ (demo_date cfg_demo = Some "2021-04-05"
      /\ strptime_ymd "2021-04-05" = Some 737885%Z
      /\ resolve cfg_demo night afternoon = Ret {| dt_ordinal := 737885; dt_micros := 0 |}).
Proof.
  split.
  - split; [reflexivity|]. split; [reflexivity|]. split.
    + destruct (proj1 (parse_today_resolves strptime_ymd strptime_hm cfg)
                  night {| dt_ordinal := 737886; dt_micros := 5400000001 |}
                  10800000000%Z eq_refl eq_refl) as (d & Hd & _ & Hlt).
      exists d. split; [exact Hd|]. apply Hlt. right. split; reflexivity.
    + destruct (proj1 (proj2 (parse_today_resolves strptime_ymd strptime_hm cfg))
                  afternoon 10800000000%Z eq_refl eq_refl) as (d & Hd & Hge & _).
      exists d. split; [exact Hd|]. apply Hge. discriminate.
  - split; [reflexivity|]. split; [reflexivity|].
    apply (proj2 (proj2 (parse_today_resolves strptime_ymd strptime_hm cfg_demo))
             "2021-04-05" 737885%Z night afternoon eq_refl); [discriminate|reflexivity].
Defined.

(** C4 on the sample slate: the preferred team plays at positions 1 and 2,
    only the second of which is live, and the index is 2. *)
Lemma game_index_for_preferred_team_selects_witness :
  preferred_teams (config fresh) = ["Yankees"]
  /\ TEAM_FULL !! "Yankees" = Some "New York Yankees"
  /\ index_for_preferred (set_current_game_index 0 fresh)
     = (Ret 2, set_current_game_index 0 fresh).
Proof.
  split; [reflexivity|]. split; [reflexivity|].
  destruct (proj2 (game_index_for_preferred_team_selects TEAM_FULL is_live
                     (set_current_game_index 0 fresh))
              "Yankees" [] "New York Yankees" eq_refl eq_refl)
    as (r & Hrun & Hlive & _).
  destruct Hlive as [(g & Hg & _ & Hl) _].
  { exists 2. eexists. split; [reflexivity|]. split; [by right|reflexivity]. }
  destruct r as [|[|[|r]]]; simpl in Hg; try discriminate;
    injection Hg as <-; try discriminate Hl.
  exact Hrun.
Defined.

(** C9 on the sample slate: from the last of three games the cursor wraps
    to 0, and from the second of two divisions as well; where the preferred
    team's game is over, the interrupt is checked, does not fire, and the
    cursor moves from 0 to 1. *)
Lemma cursor_increment_is_modular_witness :
  current_game_index fresh < length (games fresh)
  /\ next_game_index fresh = (Ret 0, fresh)
  /\ current_division_index plain < length (preferred_divisions (config plain))
  /\ next_division_index plain = (Ret 0, plain)
  /\ current_game_index (advance (api never) plain).2 = 0
  /\ rotation_preferred_team_live_mid_inning (config finished) = true
  /\ is_offday_for_preferred_team TEAM_FULL finished = (Ret false, finished)
  /\ index_for_preferred finished = (Ret 1, finished)
  /\ get_game (api always) (upstream_calls finished) 102 = Some (detail 102)
  /\ is_live (detailedState (detail 102)) = false
  /\ current_game_index (advance (api always) finished).2 = 1.
Proof.
  assert (Hi : current_game_index fresh < length (games fresh))
    by (unfold fresh; simpl; lia).
  assert (Hj : current_division_index plain < length (preferred_divisions (config plain)))
    by (unfold plain; simpl; lia).
  assert (Hoff : is_offday_for_preferred_team TEAM_FULL finished = (Ret false, finished))
    by (vm_compute; reflexivity).
  assert (Hidx : index_for_preferred finished = (Ret 1, finished))
    by (vm_compute; reflexivity).
  split; [exact Hi|].
  split; [exact (proj1 (cursor_increment_is_modular TEAM_FULL is_live is_inning_break
                          WARMUP (api never) fresh) Hi)|].
  split; [exact Hj|].
  destruct (cursor_increment_is_modular TEAM_FULL is_live is_inning_break
              WARMUP (api never) plain) as (_ & _ & Hdiv & _ & Hadv & _).
  split; [exact (Hdiv Hj)|].
  split; [apply (proj1 (Hadv (or_introl eq_refl))); unfold plain; simpl; lia|].
  split; [reflexivity|]. split; [exact Hoff|]. split; [exact Hidx|].
  split; [reflexivity|]. split; [reflexivity|].
  destruct (cursor_increment_is_modular TEAM_FULL is_live is_inning_break
              WARMUP (api always) finished) as (_ & _ & _ & _ & _ & Hfall & _).
  apply (Hfall 1 {| game_id := 102; away_name := "New York Yankees";
                    home_name := "Boston Red Sox"; status := "Final" |}
               (detail 102) eq_refl Hoff Hidx eq_refl eq_refl (or_introl eq_refl)).
  unfold finished. simpl. lia.
Defined.

(** C5 on the sample slate: with [rotation_only_preferred] on, the two
    games of the preferred team survive, in order. *)
Lemma refresh_games_replaces_catalog_witness :
  schedule (api always) (upstream_calls plain) (date plain) = Some slate
  /\ rotation_only_preferred (config plain) = true
  /\ Forall2 (fun t n => TEAM_FULL !! t = Some n)
             (preferred_teams (config plain)) ["New York Yankees"]
  /\ exists s',
       refresh_games TEAM_FULL (api always) plain = (Ret tt, s')
       /\ game_id <$> games s' = [102%Z; 103%Z]
       /\ network_issues s' = false.
Proof.
  assert (Hteams : Forall2 (fun t n => TEAM_FULL !! t = Some n)
                           (preferred_teams (config plain)) ["New York Yankees"]).
  { constructor; [reflexivity|constructor]. }
  split; [reflexivity|]. split; [reflexivity|]. split; [exact Hteams|].
  destruct (proj2 (proj2 (refresh_games_replaces_catalog TEAM_FULL (api always) plain)
                     slate eq_refl)
              ["New York Yankees"] eq_refl Hteams) as (s' & Hrun & Hgames & Hflag).
  exists s'. split; [exact Hrun|]. split; [|exact Hflag].
  rewrite Hgames. vm_compute. reflexivity.
Defined.

(** C6 (amended) on the sample deployment: the cursor is on the live game
    and the first preferred division is in the standings. *)
Lemma current_selection_outcomes_witness :
  games fresh !! current_game_index fresh
  = Some {| game_id := 103; away_name := "Boston Red Sox";
            home_name := "New York Yankees"; status := "In Progress" |}
  /\ current_game fresh
     = (Ret {| game_id := 103; away_name := "Boston Red Sox";
               home_name := "New York Yankees"; status := "In Progress" |}, fresh)
  /\ games offline = []
  /\ current_game offline = (Raise IndexError, offline).
Proof.
  split; [reflexivity|].
  split; [exact (proj1 (current_selection_outcomes fresh) _ eq_refl)|].
  split; [reflexivity|].
  exact (proj1 (proj2 (proj2 (current_selection_outcomes offline))) eq_refl).
Defined.

(** C6 as stated fails: on the object built while the upstream is down the
    catalog is empty and reading the current game raises; with a preferred
    division the standings do not contain, looking it up raises. *)
Lemma current_selection_can_raise :
  (games offline = []
   /\ ~ exists g s', current_game offline = (Ret g, s'))
  /\ (preferred_divisions (config al_north) !! current_division_index al_north
      = Some "AL North"
      /\ standings al_north = Val table
      /\ ~ exists d s', current_standings al_north = (Ret d, s')).
Proof.
  split.
  - split; [reflexivity|]. intros (g & s' & H). vm_compute in H. discriminate H.
  - split; [reflexivity|]. split; [reflexivity|].
    intros (d & s' & H). vm_compute in H. discriminate H.
Qed.


(** X22 on the sample deployment: while the upstream is down the cached
    detail of game 101 is what the fetch returns. *)
Lemma fetch_preferred_team_game_data_outcomes_witness :
  preferred_teams (config watching) = ["Yankees"]
  /\ TEAM_FULL !! "Yankees" = Some "New York Yankees"
  /\ existsb (plays "New York Yankees") (games watching) = true
  /\ game_data watching = Val (detail 101)
  /\ exists s',
       fetch (api (outage_from 2)) watching = (Ret (Some (detail 101)), s')
       /\ game_data s' = Val (detail 101)
       /\ network_issues s' = true.
Proof.
  split; [reflexivity|]. split; [reflexivity|]. split; [reflexivity|].
  split; [reflexivity|].
  destruct (proj2 (proj2 (fetch_preferred_team_game_data_outcomes
                            TEAM_FULL is_live (api (outage_from 2)) watching)
                     "Yankees" [] "New York Yankees" eq_refl eq_refl) eq_refl)
    as (g & _ & _ & Hstale & _).
  exact (Hstale (detail 101) eq_refl eq_refl).
Defined.

(** C2 (amended) on the plain round-robin deployment: the failed fetch
    sets the flag and wraps the cursor from 2 to 0. *)
Lemma refresh_game_data_fetch_failed_witness :
  rotation_enabled (config plain) = true
  /\ rotation_preferred_team_live_mid_inning (config plain) = false
  /\ exists s',
       refresh (api never) plain = (Ret tt, s')
       /\ network_issues s' = true
       /\ current_game_index s' = 0.
Proof.
  split; [reflexivity|]. split; [reflexivity|].
  destruct (proj2 (proj2 (refresh_game_data_fetch_failed
                            TEAM_FULL is_live is_inning_break WARMUP (api never) plain
                            {| game_id := 103; away_name := "Boston Red Sox";
                               home_name := "New York Yankees";
                               status := "In Progress" |}
                            eq_refl eq_refl))
              eq_refl (or_introl eq_refl)) as (s' & Hrun & Hflag & Hidx).
  exists s'. split; [exact Hrun|]. split; [exact Hflag|exact Hidx].
Defined.

(** C2 as stated fails: with rotation and the mid-inning interrupt on,
    the cursor on the first game and the preferred team live at position 2,
    a failed fetch for the first game followed by a successful fetch for the
    preferred team's game leaves the flag cleared and the cursor on 2, not
    on 1. *)
Lemma refresh_game_data_interrupt_counterexample :
  games watching <> []
  /\ games watching !! current_game_index watching
     = Some {| game_id := 101; away_name := "Chicago Cubs";
               home_name := "New York Mets"; status := "Scheduled" |}
  /\ get_game (api (blip_at 2)) (upstream_calls watching) 101 = None
  /\ rotation_enabled (config watching) = true
  /\ (refresh (api (blip_at 2)) watching).1 = Ret tt
  /\ network_issues (refresh (api (blip_at 2)) watching).2 = false
  /\ current_game_index (refresh (api (blip_at 2)) watching).2 = 2
  /\ ~ (network_issues (refresh (api (blip_at 2)) watching).2 = true
        /\ current_game_index (refresh (api (blip_at 2)) watching).2
           = (current_game_index watching + 1) mod length (games watching)).
Proof.
  split; [discriminate|].
  split; [reflexivity|]. split; [reflexivity|]. split; [reflexivity|].
  split; [vm_compute; reflexivity|].
  split; [vm_compute; reflexivity|].
  split; [vm_compute; reflexivity|].
  intros [H _]. vm_compute in H. discriminate H.
Qed.

(** *** Further properties on the sample deployment *)

Local Abbreviation cubs_at_mets :=
  {| game_id := 101; away_name := "Chicago Cubs"; home_name := "New York Mets";
     status := "Scheduled" |}.
Local Abbreviation red_sox_at_yankees :=
  {| game_id := 103; away_name := "Boston Red Sox"; home_name := "New York Yankees";
     status := "In Progress" |}.

(** X3 on the plain deployment: from the last game the advance wraps to
    the first one and returns it. *)
Lemma advance_returns_game_under_cursor_witness :
  advance (api never) plain = (Ret cubs_at_mets, set_current_game_index 0 plain)
  /\ games (set_current_game_index 0 plain) !! 0 = Some cubs_at_mets
  /\ current_game (set_current_game_index 0 plain)
     = (Ret cubs_at_mets, set_current_game_index 0 plain).
Proof.
  assert (Hrun : advance (api never) plain
                 = (Ret cubs_at_mets, set_current_game_index 0 plain))
    by (vm_compute; reflexivity).
  split; [exact Hrun|].
  destruct (advance_returns_game_under_cursor TEAM_FULL is_live is_inning_break WARMUP
              (api never) plain _ _ Hrun) as (_ & Hcur & _ & Hnext).
  split; [exact Hcur|exact Hnext].
Defined.

(** X4 on the sample slate: filtering for the preferred team. *)
Lemma filter_list_of_games_keeps_matching_witness :
  Forall2 (fun t n => TEAM_FULL !! t = Some n) ["Yankees"] ["New York Yankees"]
  /\ exists kept,
       filter_list_of_games TEAM_FULL slate ["Yankees"] fresh = (Ret kept, fresh)
       /\ kept `sublist_of` slate
       /\ filter_list_of_games TEAM_FULL kept ["Yankees"] fresh = (Ret kept, fresh).
Proof.
  assert (Hteams : Forall2 (fun t n => TEAM_FULL !! t = Some n)
                           ["Yankees"] ["New York Yankees"]).
  { constructor; [reflexivity|constructor]. }
  split; [exact Hteams|].
  destruct (filter_list_of_games_keeps_matching TEAM_FULL slate
              ["Yankees"] ["New York Yankees"] fresh Hteams)
    as (kept & Hrun & Hsub & _ & Hagain).
  exists kept. split; [exact Hrun|]. split; [exact Hsub|exact Hagain].
Defined.

(** X5 on a deployment with a team the table does not know. *)
Lemma refresh_games_unknown_team_witness :
  schedule (api always) (upstream_calls expos) (date expos) = Some slate
  /\ rotation_only_preferred (config expos) = true
  /\ TEAM_FULL !! "Expos" = None
  /\ refresh_games TEAM_FULL (api always) expos
     = (Raise KeyError, set_network_issues false (tick expos))
  /\ games (after (refresh_games TEAM_FULL (api always)) expos) = slate.
Proof.
  split; [reflexivity|]. split; [reflexivity|]. split; [reflexivity|].
  apply (refresh_games_unknown_team TEAM_FULL (api always) expos slate eq_refl eq_refl).
  apply Exists_cons_tl, Exists_cons_hd. reflexivity.
Defined.

(** X6 on the object built while the upstream was down. *)
Lemma is_offday_for_preferred_team_outcomes_witness :
  games offline = []
  /\ is_offday_for_preferred_team TEAM_FULL offline = (Ret true, offline)
  /\ exists b, is_offday_for_preferred_team TEAM_FULL fresh = (Ret b, fresh).
Proof.
  split; [reflexivity|].
  split; [exact (proj1 (proj2 (is_offday_for_preferred_team_outcomes TEAM_FULL offline))
                   eq_refl)|].
  destruct (is_offday_for_preferred_team_outcomes TEAM_FULL fresh)
    as (_ & _ & _ & Hres & _).
  destruct (Hres "Yankees" [] "New York Yankees" eq_refl eq_refl) as (b & Hb & _).
  exists b. exact Hb.
Defined.

(** X7 on the object built while the upstream was down. *)
Lemma advance_on_empty_catalog_raises_witness :
  games offline = []
  /\ advance (api always) offline = (Raise IndexError, set_current_game_index 0 offline).
Proof.
  split; [reflexivity|].
  exact (advance_on_empty_catalog_raises TEAM_FULL is_live is_inning_break WARMUP
           (api always) offline eq_refl).
Defined.

(** X8 on the object built while the upstream was down: the upstream is
    back, yet the refresh reports a network issue and raises. *)
Lemma refresh_game_data_cursor_outside_catalog_witness :
  length (games offline) <= current_game_index offline
  /\ rotation_enabled (config offline) = true
  /\ refresh (api always) offline
     = (Raise IndexError, set_current_game_index 0 (set_network_issues true offline)).
Proof.
  assert (Hout : length (games offline) <= current_game_index offline)
    by (unfold offline; simpl; lia).
  split; [exact Hout|]. split; [reflexivity|].
  exact (proj1 (proj2 (refresh_game_data_cursor_outside_catalog TEAM_FULL is_live
                         is_inning_break WARMUP (api always) offline Hout))
           eq_refl eq_refl).
Defined.

(** X9 on the plain deployment: four advances from position 2 of 3 end on
    position 0, three advances end where they started. *)
Lemma plain_rotation_cycles_witness :
  rotation_preferred_team_live_mid_inning (config plain) = false
  /\ current_game_index plain < length (games plain)
  /\ current_game_index (Nat.iter 4 (after (advance (api never))) plain) = 0
  /\ current_game_index (Nat.iter 3 (after (advance (api never))) plain) = 2.
Proof.
  assert (Hin : current_game_index plain < length (games plain))
    by (unfold plain; simpl; lia).
  split; [reflexivity|]. split; [exact Hin|].
  destruct (plain_rotation_cycles TEAM_FULL is_live is_inning_break WARMUP (api never)
              plain 4 eq_refl Hin) as (_ & Hk & _ & Hturn).
  split; [exact Hk|exact Hturn].
Defined.

(** X10 on the plain deployment: three advances from division 1 of 2 end on
    division 0. *)
Lemma standings_rotation_cycles_witness :
  current_division_index plain < length (preferred_divisions (config plain))
  /\ current_division_index (Nat.iter 3 (after advance_to_next_standings) plain) = 0
  /\ current_division_index (Nat.iter 2 (after advance_to_next_standings) plain) = 1.
Proof.
  assert (Hin : current_division_index plain < length (preferred_divisions (config plain)))
    by (unfold plain; simpl; lia).
  split; [exact Hin|].
  exact (proj1 (standings_rotation_cycles plain 3) Hin).
Defined.

(** X11 on the sample deployment: the live game's detail is fetched. *)
Lemma refresh_game_data_success_witness :
  games fresh !! current_game_index fresh = Some red_sox_at_yankees
  /\ get_game (api always) (upstream_calls fresh) 103 = Some (detail 103)
  /\ exists s',
       refresh (api always) fresh = (Ret tt, s')
       /\ game_data s' = Val (detail 103)
       /\ network_issues s' = false
       /\ layout_state s' = LAYOUT_STATE_DEFAULT.
Proof.
  split; [reflexivity|]. split; [reflexivity|].
  destruct (refresh_game_data_success TEAM_FULL is_live is_inning_break WARMUP
              (api always) fresh red_sox_at_yankees (detail 103) eq_refl eq_refl)
    as (s' & Hrun & Hdata & _ & Hflag & _ & _ & _ & _ & _ & Hlayout).
  exists s'. split; [exact Hrun|]. split; [exact Hdata|]. split; [exact Hflag|].
  apply Hlayout; [reflexivity|reflexivity|discriminate].
Defined.

(** X13 on the sample deployment: two advances in a row return the live
    game of the preferred team. *)
Lemma interrupt_holds_cursor_witness :
  rotation_preferred_team_live_mid_inning (config fresh) = true
  /\ plays "New York Yankees" red_sox_at_yankees = true
  /\ exists s1 s2,
       advance (api always) fresh = (Ret red_sox_at_yankees, s1)
       /\ advance (api always) s1 = (Ret red_sox_at_yankees, s2)
       /\ current_game_index s2 = current_game_index s1.
Proof.
  split; [reflexivity|]. split; [reflexivity|].
  destruct (interrupt_holds_cursor TEAM_FULL is_live is_inning_break WARMUP (api always)
              "Yankees" [] "New York Yankees" fresh red_sox_at_yankees
              (detail 103) (detail 103) "Top" "Top")
    as (s1 & s2 & H1 & H2 & Hcur & _); try reflexivity.
  exists s1, s2. split; [exact H1|]. split; [exact H2|exact Hcur].
Defined.

(** X14 on the sample deployment. *)
Lemma refreshed_standings_are_looked_up_witness :
  get_standings (api always) (upstream_calls offline) (today offline) = Some table
  /\ preferred_divisions (config offline) !! current_division_index offline
     = Some "AL East"
  /\ exists s',
       refresh_standings (api always) offline = (Ret tt, s')
       /\ current_standings s'
          = (Ret {| name := "AL East"; rows := ["New York Yankees"; "Boston Red Sox"] |}, s').
Proof.
  split; [reflexivity|]. split; [reflexivity|].
  destruct (refreshed_standings_are_looked_up (api always) offline table "AL East"
              eq_refl eq_refl) as (s' & Hrun & _ & _ & Hfound & _).
  exists s'. split; [exact Hrun|]. apply Hfound. reflexivity.
Defined.

(** X15 on the object built while the upstream was down: no standings yet. *)
Lemma standings_for_preferred_division_outcomes_witness :
  standings offline = Unset
  /\ preferred_divisions (config offline) <> []
  /\ standings_for_preferred_division offline = (Raise AttributeError, offline)
  /\ standings_for_preferred_division fresh = current_standings fresh.
Proof.
  split; [reflexivity|]. split; [discriminate|].
  destruct (standings_for_preferred_division_outcomes offline) as (_ & _ & Hunset).
  split; [apply (proj1 (Hunset eq_refl)); discriminate|].
  exact (proj1 (standings_for_preferred_division_outcomes fresh) eq_refl).
Defined.

(** X16 on the sample slate: a game is scheduled and one is in progress. *)
Lemma games_live_outcomes_witness :
  red_sox_at_yankees ∈ games fresh
  /\ is_live (status red_sox_at_yankees) = true
  /\ games_live is_live WARMUP is_fresh fresh = (Ret true, fresh).
Proof.
  assert (Hin : red_sox_at_yankees ∈ games fresh).
  { apply list_elem_of_lookup. exists 2. reflexivity. }
  split; [exact Hin|]. split; [reflexivity|].
  destruct (games_live_outcomes TEAM_FULL is_live WARMUP is_fresh fresh)
    as (b & Hrun & Hiff & _).
  assert (Hb : b = true).
  { apply Hiff. exists red_sox_at_yankees. split; [exact Hin|]. right. left. reflexivity. }
  rewrite Hb in Hrun. exact Hrun.
Defined.

(** X17 on the object built while the upstream was down: the flag is
    cleared all the same. *)
Lemma init_postconditions_witness :
  init TEAM_FULL is_live strptime_ymd strptime_hm (api never) cfg afternoon afternoon
  = (Ret tt, Some offline)
  /\ network_issues offline = false
  /\ games offline = []
  /\ standings offline = Unset.
Proof.
  assert (Hinit : init TEAM_FULL is_live strptime_ymd strptime_hm (api never)
                       cfg afternoon afternoon = (Ret tt, Some offline))
    by (vm_compute; reflexivity).
  split; [exact Hinit|].
  destruct (init_postconditions TEAM_FULL is_live strptime_ymd strptime_hm (api never)
              cfg afternoon afternoon offline Hinit)
    as (_ & _ & Hflag & _ & _ & _ & _ & _ & Hgames & Hst).
  split; [exact Hflag|]. split; [exact (Hgames eq_refl)|exact (Hst eq_refl)].
Defined.

(** X18 on the sample configuration, with an upstream that fails the first
    request. *)
Lemma init_survives_any_upstream_witness :
  resolve cfg afternoon afternoon = Ret afternoon
  /\ Forall (fun t => is_Some (TEAM_FULL !! t)) (preferred_teams cfg)
  /\ exists s,
       init TEAM_FULL is_live strptime_ymd strptime_hm (api (blip_at 0))
            cfg afternoon afternoon = (Ret tt, Some s).
Proof.
  assert (Hres : Forall (fun t => is_Some (TEAM_FULL !! t)) (preferred_teams cfg)).
  { constructor; [by eexists|constructor]. }
  split; [reflexivity|]. split; [exact Hres|].
  exact (init_survives_any_upstream TEAM_FULL is_live strptime_ymd strptime_hm
           (api (blip_at 0)) cfg afternoon afternoon afternoon eq_refl Hres).
Defined.

(** X19 on the plain deployment while the upstream is down: four
    refreshes from position 2 of 3 end on position 0 with the flag set. *)
Lemma outage_keeps_rotating_witness :
  rotation_enabled (config plain) = true
  /\ current_game_index plain < length (games plain)
  /\ current_game_index (Nat.iter 4 (after (refresh (api never))) plain) = 0
  /\ network_issues (Nat.iter 4 (after (refresh (api never))) plain) = true
  /\ upstream_calls (Nat.iter 4 (after (refresh (api never))) plain) = 6.
Proof.
  assert (Hin : current_game_index plain < length (games plain))
    by (unfold plain; simpl; lia).
  split; [reflexivity|]. split; [exact Hin|].
  destruct (outage_keeps_rotating TEAM_FULL is_live is_inning_break WARMUP (api never)
              plain 4 (fun _ _ => eq_refl) eq_refl eq_refl Hin)
    as (_ & Hcur & Hcalls & Hflag & _).
  split; [exact Hcur|]. split; [apply Hflag; lia|exact Hcalls].
Defined.

(** X20 on a clock that passes midnight between the two reads: the day of
    the first read is kept although the cutoff of the new date lies ahead. *)
Lemma sports_day_within_one_day_witness :
  demo_configured cfg = false
  /\ strptime_hm (end_of_day cfg) = Some 10800000000%Z
  /\ resolve cfg {| dt_ordinal := 737885; dt_micros := 86399999999 |}
                 {| dt_ordinal := 737886; dt_micros := 5 |}
     = Ret {| dt_ordinal := 737885; dt_micros := 86399999999 |}.
Proof.
  split; [reflexivity|]. split; [reflexivity|].
  destruct (sports_day_within_one_day strptime_ymd strptime_hm cfg
              {| dt_ordinal := 737885; dt_micros := 86399999999 |}
              {| dt_ordinal := 737886; dt_micros := 5 |} 10800000000%Z eq_refl eq_refl)
    as (d & Hrun & _ & _ & Hlater).
  rewrite Hrun. f_equal. apply Hlater. reflexivity.
Defined.

(** X21 on the sample deployment: the detail of game 101 is still the
    cached one after the interrupt moved the cursor to game 103. *)
Lemma interrupt_on_failed_fetch_keeps_stale_detail_witness :
  rotation_preferred_team_live_mid_inning (config watching) = true
  /\ get_game (api (outage_from 2)) (upstream_calls watching) 103 = None
  /\ game_data watching = Val (detail 101)
  /\ exists s',
       advance (api (outage_from 2)) watching = (Ret red_sox_at_yankees, s')
       /\ current_game_index s' = 2
       /\ game_data s' = Val (detail 101)
       /\ needs_refresh s' = false.
Proof.
  split; [reflexivity|]. split; [reflexivity|]. split; [reflexivity|].
  destruct (interrupt_on_failed_fetch_keeps_stale_detail TEAM_FULL is_live is_inning_break
              WARMUP (api (outage_from 2)) "Yankees" [] "New York Yankees" watching
              red_sox_at_yankees (detail 101))
    as (s' & Hrun & Hcur & Hdata & Hfresh & _); try reflexivity.
  exists s'. split; [exact Hrun|]. split; [|split; [exact Hdata|exact Hfresh]].
  pose proof (f_equal (fun r => current_game_index r.2) Hrun) as Hidx.
  simpl in Hidx. rewrite <- Hidx. vm_compute. reflexivity.
Defined.

End Examples.
